(** * commensurability.analysis: the analysis engine and its HDF5 persistence

    A shallow embedding of [src/src/commensurability/analysis.py]:
    [AnalysisBase.__init__], [AnalysisBase._construct_image],
    [AnalysisBase.save] and [AnalysisBase.read_from_hdf5].

    Python raises exceptions and talks to the outside (warnings, calls of the
    caller's functions, calls of the integration backend); both are kept:
    a computation of type [Run A] yields the events it emitted, in order, and
    either the exception it raised or its value. *)

From Stdlib Require Import QArith.
From stdpp Require Import gmap strings list fin_maps.

Local Open Scope string_scope.
Local Open Scope list_scope.

(** ** Exceptions and events *)

(** The exceptions the module can raise, each with the text Python shows:
    the message of a [ValueError]/[TypeError], the missing key of a
    [KeyError], the missing attribute of an [AttributeError]. [ExecError] is
    whatever [exec] raises on a stored source text. *)
Inductive exn : Type :=
| ValueError (msg : string)
| TypeError (msg : string)
| KeyError (key : string)
| AttributeError (name : string)
| IndexError
| ZeroDivisionError
| UnicodeDecodeError
| ExecError (msg : string).

(** What the module does to the outside world, in the order it does it. *)
Inductive event : Type :=
| Warn (msg : string)              (* warnings.warn(msg) *)
| CallPotentialFunction            (* potential_function() *)
| CallComputeOrbit (batch : nat).  (* backend.compute_orbit on a batch of that many coordinates *)

(** Pure code that may raise. *)
Definition Err (A : Type) : Type := exn + A.

(** Code that may raise and emits events. *)
Definition Run (A : Type) : Type := list event * Err A.

Definition ret {A} (a : A) : Run A := ([], inr a).
Definition raise {A} (e : exn) : Run A := ([], inl e).
Definition tell (ev : event) : Run unit := ([ev], inr tt).
Definition lift {A} (r : Err A) : Run A := ([], r).

Definition bind {A B} (m : Run A) (k : A → Run B) : Run B :=
  match m with
  | (log, inl e) => (log, inl e)
  | (log, inr a) => let '(log', r) := k a in (log ++ log', r)
  end.

Notation "'let*' x ':=' m 'in' k" := (bind m (λ x, k))
  (at level 10, x name, m at level 100, k at level 200, only parsing).
Notation "m ';;' k" := (bind m (λ _, k))
  (at level 100, k at level 200, right associativity, only parsing).

Definition ebind {A B} (m : Err A) (k : A → Err B) : Err B :=
  match m with
  | inl e => inl e
  | inr a => k a
  end.

(** [[f(x) for x in l]] for an [f] that may raise: the first exception wins. *)
Fixpoint emap {A B} (f : A → Err B) (l : list A) : Err (list B) :=
  match l with
  | [] => inr []
  | a :: l' => ebind (f a) (λ b, ebind (emap f l') (λ bs, inr (b :: bs)))
  end.

(** The outcome and the events of a run. *)
Definition outcome {A} (m : Run A) : Err A := m.2.
Definition events {A} (m : Run A) : list event := m.1.

(** ** Strings *)

Fixpoint drop_string (n : nat) (s : string) : string :=
  match n, s with
  | S n', String _ s' => drop_string n' s'
  | _, _ => s
  end.

(** [s.replace(old, new, 1)]: the first occurrence of [old] in [s] replaced. *)
Fixpoint replace_first (old new s : string) : string :=
  if String.prefix old s then new ++ drop_string (String.length old) s
  else match s with
       | EmptyString => EmptyString
       | String c s' => String c (replace_first old new s')
       end.

(** ** Dense arrays *)

(** [math.prod] of a tuple of lengths. *)
Definition prod (shape : list nat) : nat := foldr Nat.mul 1%nat shape.

(** A numpy array: its shape and its cells in row-major (C) order. Floats are
    taken as rationals: the module only stores them, compares them with zero
    and hands them on. *)
Record ndarray : Type := mk_ndarray {
  nd_shape : list nat;
  nd_data : list Q;
}.

(** [np.zeros(shape)] *)
Definition zeros (shape : list nat) : ndarray :=
  mk_ndarray shape (replicate (prod shape) 0%Q).

(** [np.ndindex(shape)]: every multi-index of the shape, last axis fastest. *)
Fixpoint ndindex (shape : list nat) : list (list nat) :=
  match shape with
  | [] => [[]]
  | n :: rest => i ← seq 0 n; (λ p, i :: p) <$> ndindex rest
  end.

(** The flat offset of a multi-index in an array of the given shape; an index
    of the wrong rank or out of bounds has none (numpy raises [IndexError]). *)
Fixpoint ravel (shape pixel : list nat) : option nat :=
  match shape, pixel with
  | [], [] => Some 0%nat
  | n :: rest, i :: p =>
      if decide (i < n)%nat then (λ off, i * prod rest + off)%nat <$> ravel rest p
      else None
  | _, _ => None
  end.

(** [image[pixel] = v] *)
Definition nd_set (a : ndarray) (pixel : list nat) (v : Q) : Err ndarray :=
  match ravel (nd_shape a) pixel with
  | Some off => inr (mk_ndarray (nd_shape a) (<[off := v]> (nd_data a)))
  | None => inl IndexError
  end.

(** [more_itertools.chunked(l, n)]: consecutive batches of [n] elements, the
    last one possibly shorter. The fuel is the number of batches at most. *)
Fixpoint chunked_fuel {A} (fuel n : nat) (l : list A) : list (list A) :=
  match fuel with
  | O => []
  | S fuel' =>
      match take n l with
      | [] => []
      | batch => batch :: chunked_fuel fuel' n (drop n l)
      end
  end.

Definition chunked {A} (l : list A) (n : nat) : list (list A) :=
  chunked_fuel (length l) n l.

(** ** The collaborators of the engine *)

(** The objects the engine never looks into: astropy coordinates, integrated
    orbits and the potential built by the caller's potential constructor. *)
Class Domain : Type := {
  SkyCoord : Type;
  Orbit : Type;
  Potential : Type;
}.

(** A Python function as the module uses one: [__name__],
    [inspect.getsource], [inspect.getfullargspec(f).args] and the call
    itself, which may raise. [None] as a result is [option]'s [None]. *)
Record pyfunc (R : Type) : Type := mk_pyfunc {
  fn_name : string;
  fn_source : string;
  fn_args : list string;
  fn_call : list Q → Err R;
}.
Arguments mk_pyfunc {R}.
Arguments fn_name {R}.
Arguments fn_source {R}.
Arguments fn_args {R}.
Arguments fn_call {R}.

(** The backend classes [analysis.py] imports from [pidgey]. *)
Inductive pidgey_backend : Type := AgamaBackend | GalaBackend | GalpyBackend.

(** [backend.compute_orbit(coords, potential, dt, steps, pattern_speed=...)] *)
Definition compute_orbit_t `{Domain} : Type :=
  list SkyCoord → option Potential → Q → Z → Q → Err (list Orbit).

(** A backend object: an instance of one of pidgey's classes, or any other
    object that is no string and is truthy (a [pidgey.base.Backend] of the
    caller's own, but also whatever else reaches the constructor), known by
    its class name and by what [compute_orbit] on it gives. *)
Inductive Backend `{Domain} : Type :=
| Pidgey (k : pidgey_backend)
| Custom (class_name : string) (compute : compute_orbit_t).

(** The [backend] argument of the constructor, as lines 106-117 tell values
    apart: [None] or another falsy object that is no string, a string, or a
    truthy object. *)
Inductive backend_arg `{Domain} : Type :=
| NoBackend
| BackendName (name : string)
| BackendObject (b : Backend).

(** What the module takes from outside itself: the analysis class at hand
    (its name and its [evaluate(orbit).measure]), pidgey's integrators and
    [get_backend_from], the attributes of the pidgey module besides the three
    backend classes, the text of a potential in an error message, and
    Python's [exec] on a stored source text (the namespace it leaves, as far
    as functions go).

    [pidgey_attribute name] is what [getattr(pidgey, name)()] does for a
    name that is none of the three classes: [None] where the module has no
    such attribute, otherwise what calling the attribute without arguments
    gives, an exception or a value. The value is read as the constructor
    reads its [backend] argument: a string, a falsy object ([None], [0], an
    empty list), or any other object. *)
Class Collaborators `{Domain} : Type := {
  cls_name : string;
  evaluate_measure : Orbit → Err Q;
  pidgey_compute_orbit : pidgey_backend → compute_orbit_t;
  get_backend_from : option Potential → option Backend;
  pidgey_attribute : string → option (Err backend_arg);
  str_potential : option Potential → string;
  exec_ic : string → Err (string → option (pyfunc SkyCoord));
  exec_potential : string → Err (string → option (pyfunc (option Potential)));
}.

(** ** The container *)

(** A metadata entry of a dataset: a text blob ([np.void] of utf-8 bytes), a
    float, an integer, or an array of floats. *)
Inductive AttrVal : Type :=
| AText (s : string)
| AFloat (q : Q)
| AInt (z : Z)
| AArray (l : list Q).

Record dataset : Type := mk_dataset {
  ds_data : ndarray;
  ds_attrs : gmap string AttrVal;
}.

(** An HDF5 file: its datasets by name. *)
Abbreviation h5file := (gmap string dataset).

(** [dset.attrs[key]] *)
Definition attr (d : dataset) (key : string) : Err AttrVal :=
  match ds_attrs d !! key with
  | Some v => inr v
  | None => inl (KeyError key)
  end.

(** [v.tobytes().decode("utf8")]. An entry that is no text blob is outside
    the container format; its raw bytes are taken not to decode. *)
Definition tobytes_decode (v : AttrVal) : Err string :=
  match v with
  | AText s => inr s
  | _ => inl UnicodeDecodeError
  end.

(** The entries the constructor receives as numbers and sequences. An entry
    of another kind is outside the container format and taken to raise. *)
Definition as_float (v : AttrVal) : Err Q :=
  match v with
  | AFloat q => inr q
  | AInt z => inr (inject_Z z)
  | _ => inl (TypeError "not a number")
  end.

Definition as_int (v : AttrVal) : Err Z :=
  match v with
  | AInt z => inr z
  | _ => inl (TypeError "not an integer")
  end.

Definition as_sequence (v : AttrVal) : Err (list Q) :=
  match v with
  | AArray l => inr l
  | _ => inl (TypeError "object has no len()")
  end.

(** ** The engine *)

Section Engine.
Context `{Cb : Collaborators}.

(** An [AnalysisBase] instance: the attributes [__init__] sets on [self]. *)
Record Analysis : Type := mk_Analysis {
  self_ic_function : pyfunc SkyCoord;
  self_axis_names : list string;
  self_values : gmap string (list Q);
  self_shape : list nat;
  self_size : nat;
  self_potential_function : pyfunc (option Potential);
  self_potential : option Potential;
  self_dt : Q;
  self_steps : Z;
  self_pattern_speed : Q;
  self_backend : Backend;
  self_image : ndarray;
}.

(** [analysis.image = array] *)
Definition set_image (self : Analysis) (array : ndarray) : Analysis :=
  mk_Analysis (self_ic_function self) (self_axis_names self) (self_values self)
    (self_shape self) (self_size self) (self_potential_function self)
    (self_potential self) (self_dt self) (self_steps self)
    (self_pattern_speed self) (self_backend self) array.

(** Modelled from the spec: [utils.make_quantity], which is not among the
    sources. The Quantity/Unit Adapter "normalizes scalar or
    already-dimensioned inputs into a canonical internal unit system"; the
    inputs here are bare scalars, already in the canonical unit, so the value
    is kept and [.value] reads it back. *)
Definition make_quantity (x : Q) : Q := x.

(** Modelled from the spec: [utils.collapse_coords], which is not among the
    sources: "collapse the per-pixel coordinates into a single batched
    coordinate collection". The batch is the list of its coordinates. *)
Definition collapse_coords (coords : list SkyCoord) : list SkyCoord := coords.

(** [backend.__class__.__name__] *)
Definition class_name_of (b : Backend) : string :=
  match b with
  | Pidgey AgamaBackend => "AgamaBackend"
  | Pidgey GalaBackend => "GalaBackend"
  | Pidgey GalpyBackend => "GalpyBackend"
  | Custom name _ => name
  end.

(** [backend.compute_orbit] *)
Definition compute_orbit (b : Backend) : compute_orbit_t :=
  match b with
  | Pidgey k => pidgey_compute_orbit k
  | Custom _ compute => compute
  end.

(** Lines 107-114: the table of backend names. *)
Definition backend_of_name (name : string) : Err Backend :=
  if String.eqb name "agama" then inr (Pidgey AgamaBackend)
  else if String.eqb name "gala" then inr (Pidgey GalaBackend)
  else if String.eqb name "galpy" then inr (Pidgey GalpyBackend)
  else inl (ValueError ("Unrecognized backend: " ++ name)).

(** Lines 106-117: backend resolution. A backend object is truthy, as any
    Python object without [__bool__] or [__len__] is, so [backend or ...]
    keeps it and asks [get_backend_from] only for [None]. *)
Definition resolve_backend (backend : backend_arg)
    (potential : option Potential) : Err Backend :=
  ebind
    match backend with
    | BackendName name => ebind (backend_of_name name) (λ b, inr (Some b))
    | BackendObject b => inr (Some b)
    | NoBackend => inr None
    end
    (λ backend,
      let backend :=
        match backend with
        | Some b => Some b
        | None => get_backend_from potential
        end in
      match backend with
      | Some b => inr b
      | None => inl (TypeError ("Unrecognized potential: " ++ str_potential potential))
      end).

(** Lines 89-91: the condition under which the constructor refuses the axes. *)
Definition axes_mismatch (axis_names : list string)
    (values : gmap string (list Q)) : bool :=
  negb (size values =? length axis_names)%nat
  || negb (forallb (λ name, bool_decide (name ∈ axis_names)) (map_to_list values).*1).

(** Line 93: [tuple(len(self.values[name]) for name in self.axis_names)] *)
Definition grid_shape (axis_names : list string)
    (values : gmap string (list Q)) : Err (list nat) :=
  emap (λ name, match values !! name with
                | Some seq => inr (length seq)
                | None => inl (KeyError name)
                end) axis_names.

(** Line 144: [[self.values[ax][i] for i, ax in zip(pixel, self.axis_names)]] *)
Definition pixel_params (self : Analysis) (pixel : list nat) : Err (list Q) :=
  emap (λ '(i, ax), match self_values self !! ax with
                    | Some seq => match seq !! i with
                                  | Some v => inr v
                                  | None => inl IndexError
                                  end
                    | None => inl (KeyError ax)
                    end) (zip pixel (self_axis_names self)).

(** Lines 156-163: one evaluation and one cell written per (pixel, orbit). *)
Fixpoint write_measures (image : ndarray)
    (pairs : list (list nat * Orbit)) : Err ndarray :=
  match pairs with
  | [] => inr image
  | (pixel, orbit) :: rest =>
      ebind (evaluate_measure orbit) (λ measure,
      ebind (nd_set image pixel measure) (λ image',
      write_measures image' rest))
  end.

(** Lines 142-163: the body of the loop over batches. *)
Definition run_batch (self : Analysis) (image : ndarray)
    (pixels : list (list nat)) : Run ndarray :=
  let* coords := lift (emap (λ pixel,
      ebind (pixel_params self pixel) (fn_call (self_ic_function self))) pixels) in
  let coords := collapse_coords coords in
  tell (CallComputeOrbit (length coords));;
  let* orbits := lift (compute_orbit (self_backend self) coords
      (self_potential self) (self_dt self) (self_steps self)
      (self_pattern_speed self)) in
  lift (write_measures image (zip pixels orbits)).

Fixpoint run_batches (self : Analysis) (image : ndarray)
    (batches : list (list (list nat))) : Run ndarray :=
  match batches with
  | [] => ret image
  | pixels :: rest =>
      let* image' := run_batch self image pixels in
      run_batches self image' rest
  end.

(** [AnalysisBase._construct_image]. The progress bars change nothing but
    the terminal; [total=self.size // chunksize] is still computed, and
    divides by zero for a zero [chunksize], and [chunked] hands a negative
    [chunksize] to [islice], which refuses it. *)
Definition _construct_image (self : Analysis) (chunksize : Z)
    (progressbar : bool) : Run Analysis :=
  if (chunksize =? 0)%Z then raise ZeroDivisionError
  else if (chunksize <? 0)%Z
  then raise (ValueError "Stop argument for islice() must be None or an integer: 0 <= x <= sys.maxsize.")
  else
    let* image := run_batches self (self_image self)
        (chunked (ndindex (self_shape self)) (Z.to_nat chunksize)) in
    ret (set_image self image).

(** [AnalysisBase.__init__]. The time step and the pattern speed are
    numbers, taken as rationals; a float that is no number (NaN), for which
    the comparison of line 99 is false as it is for a positive time step, is
    not among them. What the statements below say of the time step of an
    engine that was constructed is what that comparison gives: the time step
    is not less than or equal to zero. *)
Definition __init__ (ic_function : pyfunc SkyCoord)
    (values : gmap string (list Q))
    (potential_function : pyfunc (option Potential))
    (dt : Q) (steps : Z) (pattern_speed : Q) (backend : backend_arg)
    (chunksize : Z) (progressbar : bool) (_blank_image : bool) : Run Analysis :=
  let axis_names := fn_args ic_function in
  if axes_mismatch axis_names values
  then raise (ValueError "values and ic_function signature do not correspond")
  else
  let* shape := lift (grid_shape axis_names values) in
  let size := prod shape in
  tell CallPotentialFunction;;
  let* potential := lift (fn_call potential_function []) in
  let dt := make_quantity dt in
  if Qle_bool dt 0 then raise (ValueError "dt must be greater than 0") else
  if (steps <=? 0)%Z then raise (ValueError "steps must be greater than 0") else
  let pattern_speed := make_quantity pattern_speed in
  let* backend := lift (resolve_backend backend potential) in
  if (chunksize <=? 0)%Z then raise (ValueError "chunksize must be greater than 0") else
  if (chunksize >=? Z.of_nat size)%Z
  then raise (ValueError "chunksize must be less than total number of starting coordinates")
  else
  let self := mk_Analysis ic_function axis_names values shape size
      potential_function potential dt steps pattern_speed backend (zeros shape) in
  if _blank_image then ret self
  else _construct_image self chunksize progressbar.

End Engine.

(** ** The pidgey module *)

(** An attribute of the [pidgey] package as the loader finds it by name
    (line 239): one of the three backend classes, which [analysis.py]
    imports from the package under these names, or any other attribute the
    package answers to, known by what calling it without arguments gives. The
    package itself is not part of the repository, and a module answers to
    more names than it exports ([__dir__], [__sizeof__], ...): which names
    besides the three classes exist is left to [pidgey_attribute]. *)
Inductive pidgey_attr `{Domain} : Type :=
| BackendClass (k : pidgey_backend)
| OtherAttr (call : Err backend_arg).

Definition newline : string := String (Ascii.ascii_of_nat 10) EmptyString.

Section Persistence.
Context `{Cb : Collaborators}.

(** [getattr(pidgey, name)] *)
Definition pidgey_getattr (name : string) : Err pidgey_attr :=
  if String.eqb name "AgamaBackend" then inr (BackendClass AgamaBackend)
  else if String.eqb name "GalaBackend" then inr (BackendClass GalaBackend)
  else if String.eqb name "GalpyBackend" then inr (BackendClass GalpyBackend)
  else match pidgey_attribute name with
       | Some call => inr (OtherAttr call)
       | None => inl (AttributeError name)
       end.

(** [backend_cls()], line 247: a backend class called without arguments
    gives an instance of it, as on lines 108-112; another attribute gives
    what its call gives. *)
Definition call_backend_cls (a : pidgey_attr) : Err backend_arg :=
  match a with
  | BackendClass k => inr (BackendObject (Pidgey k))
  | OtherAttr call => call
  end.

(** Lines 178-192: the six entries [save] writes first, in order. *)
Definition save_attrs (self : Analysis) : list (string * AttrVal) :=
  let icsource := fn_source (self_ic_function self) in
  let icsource := replace_first (fn_name (self_ic_function self)) "ic_function" icsource in
  let potsource := fn_source (self_potential_function self) in
  let potsource :=
    replace_first (fn_name (self_potential_function self)) "potential_function" potsource in
  [ ("icfunc", AText icsource);
    ("potfunc", AText potsource);
    ("dt", AFloat (self_dt self));
    ("steps", AInt (self_steps self));
    ("pattern_speed", AFloat (self_pattern_speed self));
    ("backend", AText (class_name_of (self_backend self))) ].

(** [AnalysisBase.save]: the file written at [path], one dataset named after
    the class. Both loops assign [dset.attrs[attr] = value]: first the six
    entries above, then one entry per axis, which overwrites an entry of the
    same name. The handling of the path (creating the parent directory) is
    left out: the content of the file does not depend on it. *)
Definition save (self : Analysis) : h5file :=
  let dset_attrs :=
    foldl (λ attrs '(attr, value), <[attr := value]> attrs) ∅ (save_attrs self) in
  let dset_attrs :=
    map_fold (λ attr value attrs, <[attr := AArray value]> attrs)
      dset_attrs (self_values self) in
  {[ cls_name := mk_dataset (self_image self) dset_attrs ]}.

(** Lines 222-223 and 236-237: the functions that stand in for a missing
    source. Both take no argument and return [None]; as an initial-condition
    constructor [None] is no coordinate, so a call of it yields nothing the
    engine could integrate. *)
Definition noop_ic_function : pyfunc SkyCoord :=
  mk_pyfunc "ic_function"
    ("                def ic_function() -> None:" ++ newline ++
     "                    pass" ++ newline)
    []
    (λ _, inl (TypeError "None is not a coordinate")).

Definition noop_potential_function : pyfunc (option Potential) :=
  mk_pyfunc "potential_function"
    ("                def potential_function() -> None:" ++ newline ++
     "                    pass" ++ newline)
    []
    (λ _, inr None).

(** [namespace[name]] after [exec(source, {"u": u, "c": c}, namespace)] *)
Definition exec_lookup {R} (exec : string → Err (string → option (pyfunc R)))
    (source name : string) : Err (pyfunc R) :=
  ebind (exec source) (λ namespace,
    match namespace name with
    | Some f => inr f
    | None => inl (KeyError name)
    end).

(** Line 226: [{name: dset.attrs[name] for name in axis_names}] *)
Fixpoint read_values (dset : dataset) (axis_names : list string)
    (values : gmap string AttrVal) : Err (gmap string AttrVal) :=
  match axis_names with
  | [] => inr values
  | name :: rest =>
      ebind (attr dset name) (λ v, read_values dset rest (<[name := v]> values))
  end.

(** The axis entries as the sequences the constructor takes the length of,
    axis by axis. *)
Fixpoint sequences (raw : gmap string AttrVal) (axis_names : list string)
    (values : gmap string (list Q)) : Err (gmap string (list Q)) :=
  match axis_names with
  | [] => inr values
  | name :: rest =>
      match raw !! name with
      | Some v => ebind (as_sequence v) (λ l, sequences raw rest (<[name := l]> values))
      | None => inl (KeyError name)
      end
  end.

(** [AnalysisBase.read_from_hdf5], on the file found at [path]. *)
Definition read_from_hdf5 (f : h5file) : Run Analysis :=
  let* dset := lift (match f !! cls_name with
                     | Some d => inr d
                     | None => inl (KeyError cls_name)
                     end) in
  let* ic_function :=
    match ds_attrs dset !! "icfunc" with
    | Some v =>
        let* icsource := lift (tobytes_decode v) in
        lift (exec_lookup exec_ic icsource "ic_function")
    | None =>
        tell (Warn "No potential function defined.");;
        ret noop_ic_function
    end in
  let axis_names := fn_args ic_function in
  let* values := lift (read_values dset axis_names ∅) in
  let* potential_function :=
    match ds_attrs dset !! "potfunc" with
    | Some v =>
        let* potsource := lift (tobytes_decode v) in
        lift (exec_lookup exec_potential potsource "potential_function")
    | None =>
        tell (Warn "No potential function defined.");;
        ret noop_potential_function
    end in
  let* backend_name := lift (ebind (attr dset "backend") tobytes_decode) in
  let* backend_cls := lift (pidgey_getattr backend_name) in
  let* dt := lift (ebind (attr dset "dt") as_float) in
  let* steps := lift (ebind (attr dset "steps") as_int) in
  let* pattern_speed := lift (ebind (attr dset "pattern_speed") as_float) in
  let* backend := lift (call_backend_cls backend_cls) in
  let* values := lift (sequences values axis_names ∅) in
  let* analysis :=
    __init__ ic_function values potential_function dt steps pattern_speed
      backend 1 true true in
  ret (set_image analysis (ds_data dset)).

End Persistence.

(** ** A small world to run the engine in

    The scenario of the spec's testable properties: coordinates and orbits
    are plain lists of numbers, the integrator returns each coordinate as a
    degenerate orbit, the evaluator returns the first number of the orbit. *)

Definition demo_domain : Domain :=
  {| SkyCoord := list Q; Orbit := list Q; Potential := unit |}.

(** The caller's functions of the scenario, with their sources. *)
Definition demo_ic : pyfunc (list Q) :=
  mk_pyfunc "ic" "def ic(x): return c.SkyCoord(x)" ["x"] (λ params, inr params).

Definition demo_ic2 : pyfunc (list Q) :=
  mk_pyfunc "ic2" "def ic2(R, vT): return c.SkyCoord(R, vT)" ["R"; "vT"]
    (λ params, inr params).

Definition demo_potential : pyfunc (option unit) :=
  mk_pyfunc "pot" "def pot(): return 1 * u.kpc" [] (λ _, inr (Some tt)).

(** [exec] as far as the scenario needs it: the two renamed sources above are
    understood, each defining the function under its new name; any other text
    is refused. *)
Definition demo_exec_ic (source : string) :
    Err (string → option (pyfunc (list Q))) :=
  if String.eqb source "def ic_function(x): return c.SkyCoord(x)"
  then inr (λ name,
    if String.eqb name "ic_function"
    then Some (mk_pyfunc "ic_function" source ["x"] (λ params, inr params))
    else None)
  else inl (ExecError "SyntaxError").

Definition demo_exec_potential (source : string) :
    Err (string → option (pyfunc (option unit))) :=
  if String.eqb source "def potential_function(): return 1 * u.kpc"
  then inr (λ name,
    if String.eqb name "potential_function"
    then Some (mk_pyfunc "potential_function" source [] (λ _, inr (Some tt)))
    else None)
  else inl (ExecError "SyntaxError").

Definition head_measure (orbit : list Q) : Err Q :=
  match orbit with
  | m :: _ => inr m
  | [] => inl IndexError
  end.

(** The list [pidgey.__dir__()] returns, as an object: a list, which has
    no [compute_orbit]. Every module answers to [__dir__], and the list is
    not empty. *)
Definition dir_list : @Backend demo_domain :=
  @Custom demo_domain "list"
    (λ _ _ _ _ _, inl (AttributeError "'list' object has no attribute 'compute_orbit'")).

(** The pidgey module of the scenario, besides its three classes: the
    function and the submodule that [analysis.py] names, and [__dir__]. *)
Definition demo_pidgey_attribute (name : string) :
    option (Err (@backend_arg demo_domain)) :=
  if String.eqb name "get_backend_from"
  then Some (inl (TypeError "get_backend_from() missing 1 required positional argument"))
  else if String.eqb name "base"
  then Some (inl (TypeError "'module' object is not callable"))
  else if String.eqb name "__dir__"
  then Some (inr (BackendObject dir_list))
  else None.

Definition demo_world : @Collaborators demo_domain :=
  {| cls_name := "TrivialAnalysis";
     evaluate_measure := head_measure : @Orbit demo_domain → Err Q;
     pidgey_compute_orbit := λ _ (coords : list (list Q)) _ _ _ _, inr coords;
     get_backend_from := λ potential,
       match potential with
       | Some _ => Some (@Pidgey demo_domain GalpyBackend)
       | None => None
       end;
     pidgey_attribute := demo_pidgey_attribute;
     str_potential := λ potential,
       match potential with
       | Some _ => "1.0 kpc"
       | None => "None"
       end;
     exec_ic := demo_exec_ic;
     exec_potential := demo_exec_potential |}.

(** A backend of the caller's own: every coordinate is its own orbit. *)
Definition trivial_backend : @Backend demo_domain :=
  @Custom demo_domain "TrivialBackend" (λ coords _ _ _ _, inr coords).

(** A backend of the caller's own whose orbits depend on the batch they are
    integrated in: each orbit is the number of coordinates of the batch. *)
Definition batch_backend : @Backend demo_domain :=
  @Custom demo_domain "BatchBackend"
    (λ coords _ _ _ _, inr ((λ _, [inject_Z (Z.of_nat (length coords))]) <$> coords)).

Definition demo_values : gmap string (list Q) :=
  {[ "x" := [1; 2; 3]%Q ]}.

Definition demo_values2 : gmap string (list Q) :=
  {[ "vT" := [10; 20; 30]%Q; "R" := [1; 2]%Q ]}.

(** The scenario's engine: three grid points, one orbit per batch. *)
Definition demo_run (backend : @backend_arg demo_domain) (chunksize : Z) :
    Run (@Analysis demo_domain) :=
  __init__ (Cb := demo_world) demo_ic demo_values demo_potential
    1%Q 10%Z 0%Q backend chunksize true false.

(** ** The image, pixel by pixel *)

Section PixelByPixel.
Context `{Cb : Collaborators}.

(** The image loop without batches, for an integrator that takes one
    coordinate at a time: each pixel in turn is expanded, integrated,
    evaluated and written. *)
Fixpoint fill_pixels (self : Analysis) (integrate : SkyCoord → Err Orbit)
    (image : ndarray) (pixels : list (list nat)) : Err ndarray :=
  match pixels with
  | [] => inr image
  | pixel :: rest =>
      ebind (pixel_params self pixel) (λ params,
      ebind (fn_call (self_ic_function self) params) (λ coord,
      ebind (integrate coord) (λ orbit,
      ebind (evaluate_measure orbit) (λ measure,
      ebind (nd_set image pixel measure) (λ image',
      fill_pixels self integrate image' rest)))))
  end.

End PixelByPixel.

(** ** One pixel, and reading the image *)

(** [image[pixel]], read. *)
Definition nd_get (a : ndarray) (pixel : list nat) : Err Q :=
  match ravel (nd_shape a) pixel with
  | Some off =>
      match nd_data a !! off with
      | Some v => inr v
      | None => inl IndexError
      end
  | None => inl IndexError
  end.

Section OnePixel.
Context `{Cb : Collaborators}.

(** What the loop does for one grid position, for an integrator that takes
    one coordinate at a time (lines 144-145, 149, 163): the parameters of
    the pixel, its initial condition, its orbit, the measure of the orbit. *)
Definition pixel_measure (self : Analysis) (integrate : SkyCoord → Err Orbit)
    (pixel : list nat) : Err Q :=
  ebind (pixel_params self pixel) (λ params,
  ebind (fn_call (self_ic_function self) params) (λ coord,
  ebind (integrate coord) evaluate_measure)).

End OnePixel.

(** ** Reading a run *)

(** How many times the caller's potential constructor was invoked. *)
Definition potential_calls (log : list event) : nat :=
  length (List.filter (λ ev, match ev with CallPotentialFunction => true | _ => false end) log).

(** How many times the backend was asked to integrate. *)
Definition integration_calls (log : list event) : nat :=
  length (List.filter (λ ev, match ev with CallComputeOrbit _ => true | _ => false end) log).

(** The errors with which the constructor refuses a Run Parameter (time
    step, step count, batch size). *)
Definition run_parameter_errors : list exn :=
  [ ValueError "dt must be greater than 0";
    ValueError "steps must be greater than 0";
    ValueError "chunksize must be greater than 0";
    ValueError "chunksize must be less than total number of starting coordinates" ].

(** The entries [save] writes besides the axes. *)
Definition reserved_keys : list string :=
  ["icfunc"; "potfunc"; "dt"; "steps"; "pattern_speed"; "backend"].

(** ** Containers of the scenario *)

Definition demo_attrs (backend_name : string) : gmap string AttrVal :=
  list_to_map
    [ ("icfunc", AText "def ic_function(x): return c.SkyCoord(x)");
      ("potfunc", AText "def potential_function(): return 1 * u.kpc");
      ("dt", AFloat 1);
      ("steps", AInt 10);
      ("pattern_speed", AFloat 0);
      ("backend", AText backend_name);
      ("x", AArray [1; 2; 3]%Q) ].

(** A container as [save] writes it for the scenario's engine. *)
Definition demo_file (backend_name : string) : h5file :=
  {[ "TrivialAnalysis" :=
       mk_dataset (mk_ndarray [3%nat] [1; 2; 3]%Q) (demo_attrs backend_name) ]}.

(** The same container with the two source entries removed. *)
Definition demo_file_without_sources : h5file :=
  {[ "TrivialAnalysis" :=
       mk_dataset (mk_ndarray [3%nat] [1; 2; 3]%Q)
         (delete "potfunc" (delete "icfunc" (demo_attrs "GalpyBackend"))) ]}.

(** A container whose array has four cells in two rows, while its one axis
    has three values. *)
Definition demo_file_other_shape : h5file :=
  {[ "TrivialAnalysis" :=
       mk_dataset (mk_ndarray [2; 2]%nat [1; 2; 3; 4]%Q) (demo_attrs "GalpyBackend") ]}.

(** The scenario's container without the entry of its axis. *)
Definition demo_file_without_axis : h5file :=
  {[ "TrivialAnalysis" :=
       mk_dataset (mk_ndarray [3%nat] [1; 2; 3]%Q)
         (delete "x" (demo_attrs "GalpyBackend")) ]}.

(** ** Further engines of the scenario *)

(** A constructor that divides by [x - 2]: it raises at [x = 2]. *)
Definition demo_ic_pole : pyfunc (list Q) :=
  mk_pyfunc "ic" "def ic(x): return c.SkyCoord(1 / (x - 2))" ["x"]
    (λ params,
       match params with
       | [x] => if Qeq_bool x 2 then inl ZeroDivisionError else inr [/ (x - 2)]%Q
       | _ => inl (TypeError "ic() takes 1 positional argument")
       end).

(** The scenario's constructor under the name [f]. *)
Definition demo_ic_f : pyfunc (list Q) :=
  mk_pyfunc "f" "def f(x): return c.SkyCoord(x)" ["x"] (λ params, inr params).

(** A second analysis class over the same coordinates: its evaluator counts
    the points of the orbit, and so never raises. *)
Definition counting_world : @Collaborators demo_domain :=
  {| cls_name := "CountingAnalysis";
     evaluate_measure := (λ orbit, inr (inject_Z (Z.of_nat (length orbit))))
       : @Orbit demo_domain → Err Q;
     pidgey_compute_orbit := λ _ (coords : list (list Q)) _ _ _ _, inr coords;
     get_backend_from := λ potential,
       match potential with
       | Some _ => Some (@Pidgey demo_domain GalpyBackend)
       | None => None
       end;
     pidgey_attribute := demo_pidgey_attribute;
     str_potential := λ potential,
       match potential with
       | Some _ => "1.0 kpc"
       | None => "None"
       end;
     exec_ic := demo_exec_ic;
     exec_potential := demo_exec_potential |}.

(** The instance the constructor returns in blank mode for a constructor of
    one parameter [x] on the scenario's axis, with pidgey's Galpy backend. *)
Definition demo_blank (ic_function : pyfunc (list Q)) : @Analysis demo_domain :=
  @mk_Analysis demo_domain ic_function (fn_args ic_function) demo_values
    [3%nat] 3%nat demo_potential (Some tt) 1%Q 10%Z 0%Q (@Pidgey demo_domain GalpyBackend)
    (zeros [3%nat]).

(** * Properties *)

(** ** The helpers, on small inputs *)

Example chunked_5_2 : chunked [1; 2; 3; 4; 5]%nat 2 = [[1; 2]; [3; 4]; [5]]%nat.
Proof. reflexivity. Qed.

Example ndindex_2_3 :
  ndindex [2; 3]%nat = [[0; 0]; [0; 1]; [0; 2]; [1; 0]; [1; 1]; [1; 2]]%nat.
Proof. reflexivity. Qed.

Example ndindex_no_axis : ndindex [] = [[]] ∧ prod [] = 1%nat.
Proof. done. Qed.

Example replace_first_once :
  replace_first "init" "ic_function" "def init(x): return init" =
  "def ic_function(x): return init".
Proof. reflexivity. Qed.

Example nd_set_row_major :
  nd_set (zeros [2; 3]%nat) [1; 0]%nat 7%Q =
  inr (mk_ndarray [2; 3]%nat [0; 0; 0; 7; 0; 0]%Q).
Proof. reflexivity. Qed.

(** The scenario of the spec: the image is the axis's value sequence. *)
Example demo_image_is_the_axis :
  outcome (demo_run (BackendObject trivial_backend) 1) =
  inr (mk_Analysis (H := demo_domain) demo_ic ["x"] demo_values [3%nat] 3
    demo_potential (Some tt) 1%Q 10%Z 0%Q trivial_backend
    (mk_ndarray [3%nat] [1; 2; 3]%Q)).
Proof. reflexivity. Qed.

(** ** Running a computation *)

Lemma bind_lift_inr {A B} (a : A) (k : A → Run B) : bind (lift (inr a)) k = k a.
Proof. unfold bind, lift. by destruct (k a). Qed.

Lemma bind_lift_inl {A B} (e : exn) (k : A → Run B) :
  bind (lift (inl e)) k = ([], inl e).
Proof. reflexivity. Qed.

Lemma bind_tell {B} (ev : event) (k : unit → Run B) :
  bind (tell ev) k = (ev :: events (k tt), outcome (k tt)).
Proof. unfold bind, tell, events, outcome. by destruct (k tt). Qed.

Lemma outcome_bind {A B} (m : Run A) (k : A → Run B) :
  outcome (bind m k) = ebind (outcome m) (λ a, outcome (k a)).
Proof.
  destruct m as [log [e|a]]; [done|].
  unfold outcome, bind; simpl. by destruct (k a).
Qed.

Lemma outcome_lift {A} (r : Err A) : outcome (lift r) = r.
Proof. done. Qed.

Lemma outcome_ret {A} (a : A) : outcome (ret a) = inr a.
Proof. done. Qed.

Lemma outcome_raise {A} (e : exn) : outcome (raise e : Run A) = inl e.
Proof. done. Qed.

Lemma outcome_tell (ev : event) : outcome (tell ev) = inr tt.
Proof. done. Qed.

Create Rewrite HintDb run.

#[local] Hint Rewrite @outcome_bind @outcome_lift @outcome_ret @outcome_raise
  @outcome_tell : run.

(** The outcome of a run, pushed through its binds. *)
Ltac run_outcome := repeat (progress (autorewrite with run; cbn [ebind])).

Lemma emap_inr_length {A B} (f : A → Err B) (l : list A) (bs : list B) :
  emap f l = inr bs → length bs = length l.
Proof.
  revert bs. induction l as [|a l IH]; intros bs; simpl.
  - by intros [= <-].
  - destruct (f a) as [e|b]; [done|]; simpl.
    destruct (emap f l) as [e|bs']; [done|]; simpl.
    intros [= <-]. simpl. f_equal. by apply IH.
Qed.

(** ** The constructor, check by check *)

Section Constructor.
Context `{Cb : Collaborators}.

(** The constructor read as the sequence of its checks: what it raises, and
    what it has done to the outside by then. *)
Lemma init_unfold (ic_function : pyfunc SkyCoord) (values : gmap string (list Q))
    (potential_function : pyfunc (option Potential)) (dt : Q) (steps : Z)
    (pattern_speed : Q) (backend : backend_arg) (chunksize : Z)
    (progressbar _blank_image : bool) :
  __init__ ic_function values potential_function dt steps pattern_speed backend
    chunksize progressbar _blank_image =
  if axes_mismatch (fn_args ic_function) values
  then ([], inl (ValueError "values and ic_function signature do not correspond"))
  else match grid_shape (fn_args ic_function) values with
  | inl e => ([], inl e)
  | inr shape =>
  match fn_call potential_function [] with
  | inl e => ([CallPotentialFunction], inl e)
  | inr potential =>
  if Qle_bool dt 0
  then ([CallPotentialFunction], inl (ValueError "dt must be greater than 0"))
  else if (steps <=? 0)%Z
  then ([CallPotentialFunction], inl (ValueError "steps must be greater than 0"))
  else match resolve_backend backend potential with
  | inl e => ([CallPotentialFunction], inl e)
  | inr b =>
  if (chunksize <=? 0)%Z
  then ([CallPotentialFunction], inl (ValueError "chunksize must be greater than 0"))
  else if (chunksize >=? Z.of_nat (prod shape))%Z
  then ([CallPotentialFunction],
        inl (ValueError "chunksize must be less than total number of starting coordinates"))
  else
    let self := mk_Analysis ic_function (fn_args ic_function) values shape
      (prod shape) potential_function potential dt steps pattern_speed b
      (zeros shape) in
    if _blank_image then ([CallPotentialFunction], inr self)
    else (CallPotentialFunction :: events (_construct_image self chunksize progressbar),
          outcome (_construct_image self chunksize progressbar))
  end end end.
Proof.
  unfold __init__, make_quantity.
  destruct (axes_mismatch _ _); [done|].
  destruct (grid_shape _ _) as [e|shape]; [done|].
  rewrite bind_lift_inr, bind_tell.
  destruct (fn_call potential_function []) as [e|potential]; [done|].
  rewrite bind_lift_inr.
  destruct (Qle_bool dt 0); [done|].
  destruct (steps <=? 0)%Z; [done|].
  destruct (resolve_backend backend potential) as [e|b]; [done|].
  rewrite bind_lift_inr.
  destruct (chunksize <=? 0)%Z; [done|].
  destruct (chunksize >=? _)%Z; [done|].
  by destruct _blank_image.
Qed.

(** When the check of lines 89-91 lets the axes through, the names of the
    dict are exactly the parameters of the constructor, each once. *)
Lemma axes_match_names (axis_names : list string) (values : gmap string (list Q)) :
  axes_mismatch axis_names values = false →
  NoDup axis_names ∧ ∀ name, name ∈ axis_names ↔ is_Some (values !! name).
Proof.
  unfold axes_mismatch. intros Hok.
  apply orb_false_elim in Hok as [Hlen Hall].
  apply negb_false_iff, Nat.eqb_eq in Hlen.
  apply negb_false_iff in Hall. rewrite forallb_forall in Hall.
  set (keys := (map_to_list values).*1) in *.
  assert (Hnd : NoDup keys) by apply NoDup_fst_map_to_list.
  assert (Hkeys : length keys = length axis_names).
  { unfold keys. by rewrite length_fmap, length_map_to_list. }
  assert (Hincl : incl keys axis_names).
  { intros k Hk. apply Hall in Hk. apply bool_decide_eq_true in Hk.
    by apply list_elem_of_In. }
  assert (Hback : incl axis_names keys).
  { apply NoDup_length_incl; [by apply NoDup_ListNoDup| by rewrite Hkeys |done]. }
  split.
  - apply NoDup_ListNoDup.
    eapply NoDup_incl_NoDup; [by apply NoDup_ListNoDup, Hnd| by rewrite Hkeys |done].
  - intros name. rewrite <- elem_of_dom, elem_of_dom. unfold is_Some.
    setoid_rewrite <- elem_of_map_to_list.
    split.
    + intros Hin. apply list_elem_of_In, Hback, list_elem_of_In in Hin.
      unfold keys in Hin. apply list_elem_of_fmap in Hin as [[k v] [-> Hkv]].
      by exists v.
    + intros [v Hv]. apply list_elem_of_In, Hincl, list_elem_of_In.
      unfold keys. apply list_elem_of_fmap. by exists (name, v).
Qed.

(** Line 93 cannot fail with a [KeyError] on axes that passed the check. *)
Lemma grid_shape_lengths (axis_names : list string) (values : gmap string (list Q)) :
  (∀ name, name ∈ axis_names → is_Some (values !! name)) →
  ∃ shape, grid_shape axis_names values = inr shape ∧
    Forall2 (λ name n, ∃ seq, values !! name = Some seq ∧ n = length seq)
      axis_names shape.
Proof.
  unfold grid_shape. induction axis_names as [|name rest IH]; intros Hall; simpl.
  - exists []. split; [done|constructor].
  - destruct (Hall name) as [seq Hseq]; [left|].
    destruct IH as (shape & Hshape & Hforall).
    { intros n Hn. apply Hall. by right. }
    exists (length seq :: shape). rewrite Hseq, Hshape. simpl. split; [done|].
    constructor; [by exists seq|done].
Qed.

End Constructor.

(** ** The image loop emits integration calls only *)

Section Loop.
Context `{Cb : Collaborators}.

Lemma run_batch_potential_calls (self : Analysis) (image : ndarray)
    (pixels : list (list nat)) :
  potential_calls (events (run_batch self image pixels)) = 0%nat.
Proof.
  unfold run_batch, collapse_coords.
  destruct (emap _ pixels) as [e|coords]; [done|].
  rewrite bind_lift_inr, bind_tell. simpl.
  by destruct (compute_orbit _ _ _ _ _ _) as [e|orbits].
Qed.

Lemma potential_calls_app (l1 l2 : list event) :
  potential_calls (l1 ++ l2) = (potential_calls l1 + potential_calls l2)%nat.
Proof. unfold potential_calls. by rewrite List.filter_app, length_app. Qed.

Lemma events_bind {A B} (m : Run A) (k : A → Run B) :
  events (bind m k) =
  events m ++ match outcome m with inl _ => [] | inr a => events (k a) end.
Proof.
  destruct m as [log [e|a]]; simpl.
  - unfold events; simpl. by rewrite app_nil_r.
  - unfold events, outcome, bind; simpl. by destruct (k a).
Qed.

Lemma run_batches_potential_calls (self : Analysis) (batches : list (list (list nat)))
    (image : ndarray) :
  potential_calls (events (run_batches self image batches)) = 0%nat.
Proof.
  revert image. induction batches as [|pixels rest IH]; intros image; simpl; [done|].
  rewrite events_bind, potential_calls_app, run_batch_potential_calls.
  destruct (outcome _); [done|]. by rewrite IH.
Qed.

Lemma construct_image_potential_calls (self : Analysis) (chunksize : Z)
    (progressbar : bool) :
  potential_calls (events (_construct_image self chunksize progressbar)) = 0%nat.
Proof.
  unfold _construct_image.
  destruct (chunksize =? 0)%Z; [done|]. destruct (chunksize <? 0)%Z; [done|].
  rewrite events_bind, potential_calls_app, run_batches_potential_calls.
  by destruct (outcome _).
Qed.

(** [_construct_image] changes the image of [self] and nothing else. *)
Lemma construct_image_inv (self self' : Analysis) (chunksize : Z)
    (progressbar : bool) :
  outcome (_construct_image self chunksize progressbar) = inr self' →
  ∃ image,
    outcome (run_batches self (self_image self)
      (chunked (ndindex (self_shape self)) (Z.to_nat chunksize))) = inr image ∧
    self' = set_image self image.
Proof.
  unfold _construct_image.
  destruct (chunksize =? 0)%Z; [done|]. destruct (chunksize <? 0)%Z; [done|].
  rewrite outcome_bind.
  destruct (outcome (run_batches _ _ _)) as [e|image]; [done|].
  simpl. intros [= <-]. by exists image.
Qed.

(** What a successful construction went through. *)
Lemma init_inr_inv (ic_function : pyfunc SkyCoord) (values : gmap string (list Q))
    (potential_function : pyfunc (option Potential)) (dt : Q) (steps : Z)
    (pattern_speed : Q) (backend : backend_arg) (chunksize : Z)
    (progressbar _blank_image : bool) (log : list event) (self : Analysis) :
  __init__ ic_function values potential_function dt steps pattern_speed backend
    chunksize progressbar _blank_image = (log, inr self) →
  ∃ shape potential b image,
    axes_mismatch (fn_args ic_function) values = false ∧
    grid_shape (fn_args ic_function) values = inr shape ∧
    fn_call potential_function [] = inr potential ∧
    Qle_bool dt 0 = false ∧
    (0 < steps)%Z ∧
    resolve_backend backend potential = inr b ∧
    (0 < chunksize < Z.of_nat (prod shape))%Z ∧
    self = mk_Analysis ic_function (fn_args ic_function) values shape (prod shape)
      potential_function potential dt steps pattern_speed b image ∧
    (if _blank_image then image = zeros shape
     else outcome (run_batches
       (mk_Analysis ic_function (fn_args ic_function) values shape (prod shape)
          potential_function potential dt steps pattern_speed b (zeros shape))
       (zeros shape) (chunked (ndindex shape) (Z.to_nat chunksize))) = inr image).
Proof.
  rewrite init_unfold.
  destruct (axes_mismatch _ _) eqn:Haxes; [done|].
  destruct (grid_shape _ _) as [e|shape] eqn:Hshape; [done|].
  destruct (fn_call potential_function []) as [e|potential] eqn:Hpot; [done|].
  destruct (Qle_bool dt 0) eqn:Hdt; [done|].
  destruct (steps <=? 0)%Z eqn:Hsteps; [done|].
  destruct (resolve_backend backend potential) as [e|b] eqn:Hb; [done|].
  destruct (chunksize <=? 0)%Z eqn:Hc1; [done|].
  destruct (chunksize >=? _)%Z eqn:Hc2; [done|].
  simpl. intros Hself. exists shape, potential, b.
  assert (Hrange : (0 < steps)%Z ∧ (0 < chunksize < Z.of_nat (prod shape))%Z) by lia.
  destruct Hrange as [Hs Hc].
  destruct _blank_image.
  - injection Hself as <- <-. by exists (zeros shape).
  - injection Hself as _ Hself.
    apply construct_image_inv in Hself as (image & Himage & ->).
    exists image. simpl in *. done.
Qed.

End Loop.

(** ** Claims about the constructor *)

Section ConstructorClaims.
Context `{Cb : Collaborators}.
Implicit Types (ic_function : pyfunc SkyCoord) (values : gmap string (list Q)).
Implicit Types (potential_function : pyfunc (option Potential)).
Implicit Types (backend : backend_arg) (self : Analysis).

(** C6. An engine that was constructed has, as its shape, the lengths of the
    value sequences of its axes in the order of the constructor's declared
    parameters, and as its size their product; the same axes supplied in
    another order give the same engine. *)
Theorem shape_follows_parameter_order ic_function values potential_function
    (dt : Q) (steps : Z) (pattern_speed : Q) backend (chunksize : Z)
    (progressbar _blank_image : bool) (log : list event) self :
  __init__ ic_function values potential_function dt steps pattern_speed backend
    chunksize progressbar _blank_image = (log, inr self) →
  Forall2 (λ name n, ∃ seq, values !! name = Some seq ∧ n = length seq)
    (fn_args ic_function) (self_shape self) ∧
  self_size self = foldr Nat.mul 1%nat (self_shape self) ∧
  ∀ items : list (string * list Q),
    NoDup items.*1 → items ≡ₚ map_to_list values →
    __init__ ic_function (list_to_map items) potential_function dt steps
      pattern_speed backend chunksize progressbar _blank_image = (log, inr self).
Proof.
  intros Hinit.
  pose proof Hinit as Hinv.
  apply init_inr_inv in Hinv
    as (shape & potential & b & image & Haxes & Hshape & _ & _ & _ & _ & _ & -> & _).
  simpl. split; [|split; [done|]].
  - apply axes_match_names in Haxes as [_ Hnames].
    destruct (grid_shape_lengths (fn_args ic_function) values) as (shape' & Hshape' & Hall).
    { intros name. apply Hnames. }
    congruence.
  - intros items Hnodup Hperm.
    assert (list_to_map items = values) as ->; [|done].
    rewrite (list_to_map_proper items (map_to_list values)) by done.
    apply list_to_map_to_list.
Qed.

(** C7. When the names of the supplied axes are not exactly the declared
    parameters of the constructor, as sets, construction fails with the
    configuration error of line 92, having done nothing: no call of the
    potential constructor, no integration. *)
Theorem mismatched_axes_are_refused ic_function values potential_function
    (dt : Q) (steps : Z) (pattern_speed : Q) backend (chunksize : Z)
    (progressbar _blank_image : bool) :
  dom values ≠ list_to_set (fn_args ic_function) →
  outcome (__init__ ic_function values potential_function dt steps pattern_speed
    backend chunksize progressbar _blank_image)
  = inl (ValueError "values and ic_function signature do not correspond") ∧
  integration_calls (events (__init__ ic_function values potential_function dt
    steps pattern_speed backend chunksize progressbar _blank_image)) = 0%nat.
Proof.
  intros Hne. rewrite init_unfold.
  destruct (axes_mismatch _ _) eqn:Haxes; [done|].
  destruct Hne. apply axes_match_names in Haxes as [_ Hnames].
  apply set_eq. intros name.
  by rewrite elem_of_dom, elem_of_list_to_set, Hnames.
Qed.

(** C8. A constructed engine has [0 < chunksize < size]; a zero or negative
    batch size, and one equal to or greater than the grid size, make the
    construction fail. *)
Theorem chunksize_strictly_between ic_function values potential_function
    (dt : Q) (steps : Z) (pattern_speed : Q) backend (chunksize : Z)
    (progressbar _blank_image : bool) :
  (∀ log self,
    __init__ ic_function values potential_function dt steps pattern_speed backend
      chunksize progressbar _blank_image = (log, inr self) →
    (0 < chunksize < Z.of_nat (self_size self))%Z) ∧
  ((chunksize ≤ 0)%Z ∨
   (∃ shape, grid_shape (fn_args ic_function) values = inr shape ∧
      (Z.of_nat (prod shape) ≤ chunksize)%Z) →
   ∃ e, outcome (__init__ ic_function values potential_function dt steps
     pattern_speed backend chunksize progressbar _blank_image) = inl e).
Proof.
  split.
  - intros log self Hinit.
    apply init_inr_inv in Hinit
      as (shape & potential & b & image & _ & _ & _ & _ & _ & _ & Hc & -> & _).
    done.
  - intros Hbad.
    destruct (outcome _) as [e|self] eqn:Hout; [by exists e|].
    destruct (__init__ _ _ _ _ _ _ _ _ _ _) as [log r] eqn:Hinit.
    unfold outcome in Hout; simpl in Hout. subst r.
    apply init_inr_inv in Hinit
      as (shape & potential & b & image & _ & Hshape & _ & _ & _ & _ & Hc & _).
    destruct Hbad as [Hle|(shape' & Hshape' & Hge)]; [lia|].
    rewrite Hshape in Hshape'. injection Hshape' as <-. lia.
Qed.

(** C9. When the check of the axes fails, the constructor raises before it
    calls the caller's potential constructor: the call is made zero times.
    (When the check passes, the call is made, exactly once.) *)
Theorem potential_function_not_called_on_mismatch ic_function values
    potential_function (dt : Q) (steps : Z) (pattern_speed : Q) backend
    (chunksize : Z) (progressbar _blank_image : bool) :
  (axes_mismatch (fn_args ic_function) values = true →
   outcome (__init__ ic_function values potential_function dt steps pattern_speed
     backend chunksize progressbar _blank_image)
   = inl (ValueError "values and ic_function signature do not correspond") ∧
   potential_calls (events (__init__ ic_function values potential_function dt
     steps pattern_speed backend chunksize progressbar _blank_image)) = 0%nat) ∧
  (axes_mismatch (fn_args ic_function) values = false →
   potential_calls (events (__init__ ic_function values potential_function dt
     steps pattern_speed backend chunksize progressbar _blank_image)) = 1%nat).
Proof.
  split; intros Haxes; rewrite init_unfold, Haxes; [done|].
  apply axes_match_names in Haxes as [_ Hnames].
  destruct (grid_shape_lengths (fn_args ic_function) values) as (shape & -> & _).
  { intros name. apply Hnames. }
  destruct (fn_call potential_function []) as [e|potential]; [done|].
  destruct (Qle_bool dt 0); [done|]. destruct (steps <=? 0)%Z; [done|].
  destruct (resolve_backend _ _) as [e|b]; [done|].
  destruct (chunksize <=? 0)%Z; [done|]. destruct (chunksize >=? _)%Z; [done|].
  destruct _blank_image; [done|].
  unfold events at 1; simpl. unfold potential_calls; simpl.
  fold (potential_calls (events (_construct_image
    (mk_Analysis ic_function (fn_args ic_function) values shape (prod shape)
       potential_function potential dt steps pattern_speed b (zeros shape))
    chunksize progressbar))).
  by rewrite construct_image_potential_calls.
Qed.

(** C3, as the code has it. Once the axes are accepted and the potential
    constructor has returned, the checks run in this order: time step, step
    count, backend resolution, batch size. The first one that fails gives
    the error; so an error of backend resolution is reported whatever the
    batch size, and the batch size is only looked at once a backend is
    there. No check is followed by any integration. *)
Theorem checks_in_source_order ic_function values potential_function
    (dt : Q) (steps : Z) (pattern_speed : Q) backend (chunksize : Z)
    (progressbar _blank_image : bool) (shape : list nat)
    (potential : option Potential) :
  axes_mismatch (fn_args ic_function) values = false →
  grid_shape (fn_args ic_function) values = inr shape →
  fn_call potential_function [] = inr potential →
  ∀ r, r = __init__ ic_function values potential_function dt steps pattern_speed
    backend chunksize progressbar _blank_image →
  ((dt <= 0)%Q →
     r = ([CallPotentialFunction], inl (ValueError "dt must be greater than 0"))) ∧
  ((0 < dt)%Q → (steps ≤ 0)%Z →
     r = ([CallPotentialFunction], inl (ValueError "steps must be greater than 0"))) ∧
  ((0 < dt)%Q → (0 < steps)%Z →
     ∀ e, resolve_backend backend potential = inl e →
     r = ([CallPotentialFunction], inl e)) ∧
  ((0 < dt)%Q → (0 < steps)%Z →
     ∀ b, resolve_backend backend potential = inr b →
     ((chunksize ≤ 0)%Z →
        r = ([CallPotentialFunction],
             inl (ValueError "chunksize must be greater than 0"))) ∧
     ((0 < chunksize)%Z → (Z.of_nat (prod shape) ≤ chunksize)%Z →
        r = ([CallPotentialFunction],
             inl (ValueError
               "chunksize must be less than total number of starting coordinates")))).
Proof.
  intros Haxes Hshape Hpot r ->.
  rewrite init_unfold, Haxes, Hshape, Hpot.
  assert (Hneg : (0 < dt)%Q → Qle_bool dt 0 = false).
  { intros Hlt. destruct (Qle_bool dt 0) eqn:Hle; [|done].
    apply Qle_bool_iff in Hle. by apply Qlt_not_le in Hlt. }
  split; [|split; [|split]].
  - intros Hle. apply Qle_bool_iff in Hle. by rewrite Hle.
  - intros Hdt Hsteps. rewrite (Hneg Hdt).
    by destruct (Z.leb_spec steps 0); [|lia].
  - intros Hdt Hsteps e He. rewrite (Hneg Hdt), He.
    by destruct (Z.leb_spec steps 0); [lia|].
  - intros Hdt Hsteps b Hb. rewrite (Hneg Hdt), Hb.
    destruct (Z.leb_spec steps 0); [lia|].
    split.
    + intros Hc. by destruct (Z.leb_spec chunksize 0); [|lia].
    + intros Hc Hge. destruct (Z.leb_spec chunksize 0); [lia|].
      destruct (chunksize >=? Z.of_nat (prod shape))%Z eqn:Hcmp; [done|lia].
Qed.

End ConstructorClaims.

(** ** Claims about loading *)

Section LoadClaims.
Context `{Cb : Collaborators}.


(** The constructor as the loader calls it, on no axes at all: the grid has
    the single point [()], and the default batch size 1 is not below 1. *)
Lemma init_no_axes (ic_function : pyfunc SkyCoord)
    (potential_function : pyfunc (option Potential)) (dt : Q) (steps : Z)
    (pattern_speed : Q) (backend : backend_arg)
    (progressbar _blank_image : bool) :
  fn_args ic_function = [] →
  ∃ e, outcome (__init__ ic_function ∅ potential_function dt steps pattern_speed
    backend 1 progressbar _blank_image) = inl e.
Proof.
  intros Hargs. rewrite init_unfold, Hargs.
  change (axes_mismatch [] ∅) with false. cbn [grid_shape emap].
  destruct (fn_call potential_function []) as [e|potential]; [by eexists|].
  destruct (Qle_bool dt 0); [by eexists|].
  destruct (steps <=? 0)%Z; [by eexists|].
  destruct (resolve_backend backend potential) as [e|b]; by eexists.
Qed.

(** C1, as the code has it. A container without the [icfunc] and [potfunc]
    entries is never loaded: the two warnings are emitted and the no-op
    functions put in place, but the constructor is then called on an empty
    axis set with the default batch size 1, which the check of line 121
    refuses since the grid size is 1. With the other entries as [save]
    writes them, the exception is that [ValueError]. *)
Theorem load_without_sources_raises (f : h5file) (dset : dataset) :
  f !! cls_name = Some dset →
  ds_attrs dset !! "icfunc" = None →
  ds_attrs dset !! "potfunc" = None →
  (∃ e, outcome (read_from_hdf5 f) = inl e) ∧
  ∀ (k : pidgey_backend) (dt : Q) (steps : Z) (pattern_speed : Q),
    ds_attrs dset !! "backend" = Some (AText (class_name_of (Pidgey k))) →
    ds_attrs dset !! "dt" = Some (AFloat dt) → (0 < dt)%Q →
    ds_attrs dset !! "steps" = Some (AInt steps) → (0 < steps)%Z →
    ds_attrs dset !! "pattern_speed" = Some (AFloat pattern_speed) →
    read_from_hdf5 f =
      ([ Warn "No potential function defined.";
         Warn "No potential function defined.";
         CallPotentialFunction ],
       inl (ValueError
         "chunksize must be less than total number of starting coordinates")).
Proof.
  intros Hdset Hic Hpot. split.
  - destruct (outcome (read_from_hdf5 f)) as [e|self] eqn:Hout; [by exists e|exfalso].
    revert Hout. unfold read_from_hdf5. rewrite Hdset. cbv beta iota.
    rewrite bind_lift_inr, Hic, Hpot.
    run_outcome. simpl read_values. run_outcome.
    destruct (ebind (attr dset "backend") tobytes_decode) as [e|name]; [done|run_outcome].
    destruct (pidgey_getattr name) as [e|backend_cls]; [done|run_outcome].
    destruct (ebind (attr dset "dt") as_float) as [e|dt]; [done|run_outcome].
    destruct (ebind (attr dset "steps") as_int) as [e|steps]; [done|run_outcome].
    destruct (ebind (attr dset "pattern_speed") as_float) as [e|ps]; [done|run_outcome].
    destruct (call_backend_cls backend_cls) as [e|b]; [done|run_outcome].
    simpl sequences. run_outcome.
    destruct (init_no_axes noop_ic_function noop_potential_function dt steps ps b
      true true) as [e He]; [done|].
    by rewrite He.
  - intros k dt steps ps Hb Hdt Hdt0 Hsteps Hsteps0 Hps.
    unfold read_from_hdf5, attr. rewrite Hdset. cbv beta iota.
    rewrite bind_lift_inr, Hic, Hpot, Hb, Hdt, Hsteps, Hps.
    assert (Hle : Qle_bool dt 0 = false).
    { destruct (Qle_bool dt 0) eqn:Hle; [|done].
      apply Qle_bool_iff in Hle. by apply Qlt_not_le in Hdt0. }
    assert (Hpos : (steps <=? 0)%Z = false) by lia.
    destruct k; cbn -[__init__]; rewrite init_unfold;
      change (axes_mismatch (fn_args noop_ic_function) ∅) with false;
      cbn; by rewrite Hle, Hpos.
Qed.

End LoadClaims.

(** ** What [save] writes and what the loader reads back *)

Section Container.
Context `{Cb : Collaborators}.

(** The second loop of [save] on top of the entries already there: an axis
    entry wins over an entry of the same name. *)
Lemma save_values_lookup (base : gmap string AttrVal)
    (values : gmap string (list Q)) (key : string) :
  map_fold (λ attr value attrs, <[attr := AArray value]> attrs) base values !! key =
  match values !! key with
  | Some l => Some (AArray l)
  | None => base !! key
  end.
Proof.
  revert key.
  apply (map_fold_weak_ind (λ r m, ∀ key, r !! key =
    match m !! key with Some l => Some (AArray l) | None => base !! key end)).
  - intros key. by rewrite lookup_empty.
  - intros i x m r Hi IH key. rewrite !lookup_insert.
    case_decide; [done|]. apply IH.
Qed.

(** The dataset of a saved engine. *)
Lemma save_lookup (self : Analysis) :
  save self !! cls_name =
  Some (mk_dataset (self_image self)
    (map_fold (λ attr value attrs, <[attr := AArray value]> attrs)
       (foldl (λ attrs '(attr, value), <[attr := value]> attrs) ∅ (save_attrs self))
       (self_values self))).
Proof. unfold save. by rewrite lookup_singleton_eq. Qed.

(** An entry of [save] whose name no axis bears is read back as written. *)
Lemma save_reserved_lookup (self : Analysis) (key : string) (v : AttrVal) :
  self_values self !! key = None →
  (list_to_map (save_attrs self) : gmap string AttrVal) !! key = Some v →
  ∃ dset, save self !! cls_name = Some dset ∧ ds_attrs dset !! key = Some v.
Proof.
  intros Hkey Hv. eexists. split; [apply save_lookup|].
  simpl. rewrite save_values_lookup, Hkey.
  revert Hv. unfold save_attrs. simpl.
  rewrite !lookup_insert. repeat case_decide; congruence.
Qed.

(** Line 226 on a dataset that has an entry for every axis name. *)
Lemma read_values_lookup (dset : dataset) (axis_names : list string)
    (acc : gmap string AttrVal) :
  (∀ name, name ∈ axis_names → is_Some (ds_attrs dset !! name)) →
  ∃ raw, read_values dset axis_names acc = inr raw ∧
    ∀ key, raw !! key =
      if decide (key ∈ axis_names) then ds_attrs dset !! key else acc !! key.
Proof.
  revert acc. induction axis_names as [|name rest IH]; intros acc Hall;
    cbn [read_values].
  - exists acc. split; [done|]. intros key.
    destruct (decide (key ∈ [])) as [Hin|]; [|done].
    by apply elem_of_nil in Hin.
  - destruct (Hall name) as [v Hv]; [left|].
    unfold attr at 1. rewrite Hv. cbn [ebind].
    destruct (IH (<[name := v]> acc)) as (raw & -> & Hraw).
    { intros n Hn. apply Hall. by right. }
    exists raw. split; [done|]. intros key. rewrite Hraw.
    destruct (decide (key ∈ rest)) as [Hin|Hnin].
    + rewrite decide_True; [done|by right].
    + destruct (decide (key = name)) as [->|Hne].
      * rewrite decide_True by left. by rewrite lookup_insert_eq.
      * rewrite decide_False.
        -- by rewrite lookup_insert_ne.
        -- intros [?|?]%elem_of_cons; done.
Qed.

(** The axis entries of a saved engine, turned back into sequences. *)
Lemma sequences_lookup (raw : gmap string AttrVal) (values : gmap string (list Q))
    (axis_names : list string) (acc : gmap string (list Q)) :
  (∀ name, name ∈ axis_names →
     ∃ l, values !! name = Some l ∧ raw !! name = Some (AArray l)) →
  ∃ vals, sequences raw axis_names acc = inr vals ∧
    ∀ key, vals !! key =
      if decide (key ∈ axis_names) then values !! key else acc !! key.
Proof.
  revert acc. induction axis_names as [|name rest IH]; intros acc Hall;
    cbn [sequences].
  - exists acc. split; [done|]. intros key.
    destruct (decide (key ∈ [])) as [Hin|]; [|done].
    by apply elem_of_nil in Hin.
  - destruct (Hall name) as (l & Hl & Hraw); [left|].
    rewrite Hraw. cbn [as_sequence ebind].
    destruct (IH (<[name := l]> acc)) as (vals & -> & Hvals).
    { intros n Hn. apply Hall. by right. }
    exists vals. split; [done|]. intros key. rewrite Hvals.
    destruct (decide (key ∈ rest)) as [Hin|Hnin].
    + rewrite decide_True; [done|by right].
    + destruct (decide (key = name)) as [->|Hne].
      * rewrite decide_True by left. by rewrite lookup_insert_eq.
      * rewrite decide_False.
        -- by rewrite lookup_insert_ne.
        -- intros [?|?]%elem_of_cons; done.
Qed.

(** Reading the axes of a saved dataset gives the axes back. *)
Lemma read_saved_values (dset : dataset) (values : gmap string (list Q))
    (axis_names : list string) :
  (∀ name, name ∈ axis_names ↔ is_Some (values !! name)) →
  (∀ key l, values !! key = Some l → ds_attrs dset !! key = Some (AArray l)) →
  ∃ raw, read_values dset axis_names ∅ = inr raw ∧
    sequences raw axis_names ∅ = inr values.
Proof.
  intros Hnames Hattrs.
  destruct (read_values_lookup dset axis_names ∅) as (raw & Hraw & Hlook).
  { intros name [l Hl]%Hnames. rewrite (Hattrs _ _ Hl). by eexists. }
  exists raw. split; [done|].
  destruct (sequences_lookup raw values axis_names ∅) as (vals & -> & Hvals).
  { intros name Hin. pose proof Hin as [l Hl]%Hnames.
    exists l. split; [done|]. rewrite Hlook, decide_True by done. by apply Hattrs. }
  f_equal. apply map_eq. intros key. rewrite Hvals.
  case_decide as Hin; [done|]. rewrite lookup_empty. symmetry.
  apply eq_None_not_Some. intros Hsome. by apply Hin, Hnames.
Qed.

End Container.

(** ** A load that succeeds, and the round trip *)

Tactic Notation "run_case" "as" ident(x) ident(H) :=
  match goal with
  | |- ebind ?m _ = inr _ → _ =>
      destruct m as [?|x] eqn:H; [done|]; cbn [ebind]; run_outcome
  end.

Section RoundTrip.
Context `{Cb : Collaborators}.

(** What a load that returned an instance went through. *)
Lemma load_inr_inv (f : h5file) (self : Analysis) :
  outcome (read_from_hdf5 f) = inr self →
  ∃ dset ic_function potential_function name a backend dt steps pattern_speed
    values analysis,
    f !! cls_name = Some dset ∧
    ds_attrs dset !! "backend" = Some (AText name) ∧
    pidgey_getattr name = inr a ∧
    call_backend_cls a = inr backend ∧
    outcome (__init__ ic_function values potential_function dt steps pattern_speed
      backend 1 true true) = inr analysis ∧
    self = set_image analysis (ds_data dset).
Proof.
  unfold read_from_hdf5.
  destruct (f !! cls_name) as [dset|] eqn:Hdset; [|done].
  rewrite bind_lift_inr. run_outcome.
  run_case as ic Hic. run_case as raw Hraw. run_case as potf Hpotf.
  run_case as name Hname. run_case as backend_cls Hcls.
  run_case as dt Hdt. run_case as steps Hsteps. run_case as ps Hps.
  run_case as b Hb. run_case as values Hvalues. run_case as analysis Hinit.
  intros [= <-].
  exists dset, ic, potf, name, backend_cls, b, dt, steps, ps, values, analysis.
  repeat split; [|done..].
  unfold attr in Hname. destruct (ds_attrs dset !! "backend") as [v|]; [|done].
  destruct v; [|done..]. by injection Hname as ->.
Qed.

(** The name under which pidgey has a backend class is the class's name. *)
Lemma pidgey_getattr_class (name : string) (k : pidgey_backend) :
  pidgey_getattr name = inr (BackendClass k) ↔ name = class_name_of (Pidgey k).
Proof.
  unfold pidgey_getattr. split.
  - repeat match goal with
    | |- context [String.eqb name ?s] =>
        destruct (String.eqb_spec name s) as [->|?]; [intros Heq; by simplify_eq|]
    end.
    by destruct (pidgey_attribute name).
  - intros ->. by destruct k.
Qed.

(** A backend that came out of the constructor's table of names. *)
Lemma backend_of_name_inr (name : string) (b : Backend) :
  backend_of_name name = inr b →
  (name = "agama" ∧ b = Pidgey AgamaBackend) ∨
  (name = "gala" ∧ b = Pidgey GalaBackend) ∨
  (name = "galpy" ∧ b = Pidgey GalpyBackend).
Proof.
  unfold backend_of_name.
  repeat match goal with
  | |- context [String.eqb name ?s] =>
      destruct (String.eqb_spec name s) as [->|?]; [intros Heq; simplify_eq; tauto|]
  end.
  done.
Qed.

(** C4, as the code has it. The loader does not go through the
    constructor's table of names: it takes the stored name as the name of an
    attribute of the pidgey module, calls that attribute without arguments
    and hands the result to the constructor as [backend]. A backend the
    table can give is restored from the name [save] writes for it, the name
    of its class, which the table itself refuses; a load that succeeds went
    that way, and restored pidgey's class of that name where the stored name
    is the name of one of the three classes. Nothing confines the stored
    name to those three. *)
Theorem backend_restored_by_class_name :
  (∀ (name : string) (b : Backend),
     backend_of_name name = inr b →
     ebind (pidgey_getattr (class_name_of b)) call_backend_cls
       = inr (BackendObject b) ∧
     backend_of_name (class_name_of b) =
       inl (B := Backend) (ValueError ("Unrecognized backend: " ++ class_name_of b))) ∧
  (∀ (f : h5file) (log : list event) (self : Analysis),
     read_from_hdf5 f = (log, inr self) →
     ∃ dset name a backend,
       f !! cls_name = Some dset ∧
       ds_attrs dset !! "backend" = Some (AText name) ∧
       pidgey_getattr name = inr a ∧
       call_backend_cls a = inr backend ∧
       resolve_backend backend (self_potential self) = inr (self_backend self) ∧
       ∀ k, name = class_name_of (Pidgey k) → self_backend self = Pidgey k).
Proof.
  split.
  - intros name b [[_ ->]|[[_ ->]|[_ ->]]]%backend_of_name_inr; done.
  - intros f log self Hload.
    assert (Hout : outcome (read_from_hdf5 f) = inr self) by by rewrite Hload.
    apply load_inr_inv in Hout
      as (dset & ic & potf & name & a & backend & dt & steps & ps & values
          & analysis & Hdset & Hname & Hget & Hcall & Hinit & ->).
    destruct (__init__ _ _ _ _ _ _ _ _ _ _) as [log' r] eqn:Hrun.
    unfold outcome in Hinit; simpl in Hinit; subst r.
    apply init_inr_inv in Hrun
      as (shape & potential & b & image & _ & _ & _ & _ & _ & Hb & _ & -> & _).
    cbn [set_image self_potential self_backend].
    exists dset, name, a, backend. repeat split; [done..|].
    intros k ->. rewrite (proj2 (pidgey_getattr_class _ k) eq_refl) in Hget.
    injection Hget as <-. cbn [call_backend_cls] in Hcall.
    injection Hcall as <-. cbn in Hb. by injection Hb as <-.
Qed.

(** The image of a loaded instance is the stored array, whatever its shape. *)
Lemma loaded_image_verbatim (f : h5file) (log : list event) (self : Analysis) :
  read_from_hdf5 f = (log, inr self) →
  ∃ dset, f !! cls_name = Some dset ∧ self_image self = ds_data dset.
Proof.
  intros Hload.
  assert (Hout : outcome (read_from_hdf5 f) = inr self) by by rewrite Hload.
  apply load_inr_inv in Hout
    as (dset & ic & potf & name & a & backend & dt & steps & ps & values
        & analysis & Hdset & _ & _ & _ & _ & ->).
  by exists dset.
Qed.

End RoundTrip.

Section SaveThenLoad.
Context `{Cb : Collaborators}.

(** C2, as the code has it. For an engine that was constructed, whose
    backend is an instance of a class pidgey has under that name, whose axes
    bear none of the names [save] uses for its own entries, and whose two
    stored sources [exec] turns back into functions with the same parameters
    and the same potential, [save] then [read_from_hdf5] yields an instance
    with the same image, time step, step count, pattern speed, axis names and
    axis value sequences (and grid shape), the backend being the pidgey one. *)
Theorem save_then_load_round_trip (ic_function : pyfunc SkyCoord)
    (values : gmap string (list Q))
    (potential_function : pyfunc (option Potential)) (dt : Q) (steps : Z)
    (pattern_speed : Q) (backend : backend_arg) (chunksize : Z)
    (progressbar _blank_image : bool) (log : list event) (x : Analysis)
    (k : pidgey_backend) (ic_function' : pyfunc SkyCoord)
    (potential_function' : pyfunc (option Potential)) :
  __init__ ic_function values potential_function dt steps pattern_speed backend
    chunksize progressbar _blank_image = (log, inr x) →
  class_name_of (self_backend x) = class_name_of (Pidgey k) →
  (∀ key, key ∈ reserved_keys → values !! key = None) →
  exec_lookup exec_ic
    (replace_first (fn_name ic_function) "ic_function" (fn_source ic_function))
    "ic_function" = inr ic_function' →
  fn_args ic_function' = fn_args ic_function →
  exec_lookup exec_potential
    (replace_first (fn_name potential_function) "potential_function"
       (fn_source potential_function))
    "potential_function" = inr potential_function' →
  fn_call potential_function' [] = fn_call potential_function [] →
  ∃ y, read_from_hdf5 (save x) = ([CallPotentialFunction], inr y) ∧
    self_image y = self_image x ∧
    self_dt y = self_dt x ∧
    self_steps y = self_steps x ∧
    self_pattern_speed y = self_pattern_speed x ∧
    self_axis_names y = self_axis_names x ∧
    self_values y = self_values x ∧
    self_shape y = self_shape x ∧
    self_backend y = Pidgey k.
Proof.
  intros Hinit Hclass Hfree Hic Hargs Hpot Hcall.
  apply init_inr_inv in Hinit
    as (shape & potential & b & image & Haxes & Hshape & Hpotential & Hdt & Hsteps
        & Hb & Hchunk & -> & _).
  simpl in Hclass.
  pose proof (axes_match_names _ _ Haxes) as [_ Hnames].
  set (x := mk_Analysis ic_function (fn_args ic_function) values shape (prod shape)
    potential_function potential dt steps pattern_speed b image).
  assert (Hentry : ∀ key v, key ∈ reserved_keys →
    (list_to_map (save_attrs x) : gmap string AttrVal) !! key = Some v →
    ∃ dset, save x !! cls_name = Some dset ∧ ds_attrs dset !! key = Some v).
  { intros key v Hkey. apply save_reserved_lookup. by apply Hfree. }
  pose proof (save_lookup x) as Hdset.
  set (dset := mk_dataset _ _) in Hdset.
  assert (Hattr : ∀ key v, key ∈ reserved_keys →
    (list_to_map (save_attrs x) : gmap string AttrVal) !! key = Some v →
    ds_attrs dset !! key = Some v).
  { intros key v Hkey Hv. destruct (Hentry key v Hkey Hv) as (d & Hd & Hlook).
    rewrite Hdset in Hd. by injection Hd as <-. }
  assert (Hvals : ∃ raw, read_values dset (fn_args ic_function) ∅ = inr raw ∧
    sequences raw (fn_args ic_function) ∅ = inr values).
  { apply read_saved_values; [done|].
    intros key l Hl. unfold dset. simpl. by rewrite save_values_lookup, Hl. }
  destruct Hvals as (raw & Hraw & Hseq).
  exists (set_image
    (mk_Analysis ic_function' (fn_args ic_function') values shape (prod shape)
       potential_function' potential dt steps pattern_speed (Pidgey k) (zeros shape))
    image).
  split; [|by rewrite ?Hargs].
  unfold read_from_hdf5, attr. rewrite Hdset. cbv beta iota.
  rewrite bind_lift_inr.
  rewrite (Hattr "icfunc" _ ltac:(repeat constructor) eq_refl).
  rewrite (Hattr "potfunc" _ ltac:(repeat constructor) eq_refl).
  rewrite (Hattr "backend" _ ltac:(repeat constructor) eq_refl).
  rewrite (Hattr "dt" _ ltac:(repeat constructor) eq_refl).
  rewrite (Hattr "steps" _ ltac:(repeat constructor) eq_refl).
  rewrite (Hattr "pattern_speed" _ ltac:(repeat constructor) eq_refl).
  cbn [snd tobytes_decode as_float as_int ebind x self_ic_function
    self_potential_function self_backend self_dt self_steps self_pattern_speed].
  rewrite bind_lift_inr, Hic, bind_lift_inr, Hargs, Hraw, bind_lift_inr.
  rewrite bind_lift_inr, Hpot, !bind_lift_inr.
  rewrite Hclass, (proj2 (pidgey_getattr_class _ k) eq_refl), !bind_lift_inr.
  cbn [call_backend_cls]. rewrite bind_lift_inr, Hseq, bind_lift_inr.
  rewrite init_unfold, Hargs, Haxes, Hshape, Hcall, Hpotential, Hdt.
  destruct (Z.leb_spec steps 0) as [|_]; [lia|].
  cbn [resolve_backend ebind].
  destruct (Z.geb_spec 1 (Z.of_nat (prod shape))) as [|_]; [lia|].
  done.
Qed.

End SaveThenLoad.

(** ** Batches *)

Lemma chunked_fuel_concat {A} (fuel n : nat) (l : list A) :
  (0 < n)%nat → (length l ≤ fuel)%nat → concat (chunked_fuel fuel n l) = l.
Proof.
  intros Hn. revert l. induction fuel as [|fuel IH]; intros l Hlen; simpl.
  - destruct l; [done|simpl in Hlen; lia].
  - destruct (take n l) as [|a batch] eqn:Htake.
    + destruct l as [|a l]; [done|]. destruct n; [lia|done].
    + simpl. rewrite IH.
      * rewrite app_comm_cons, <- Htake. apply take_drop.
      * rewrite length_drop.
        destruct l as [|a' l]; [by destruct n|]. simpl in Hlen. simpl. lia.
Qed.

(** The batches of [chunked], put end to end, are the list. *)
Lemma chunked_concat {A} (l : list A) (n : nat) :
  (0 < n)%nat → concat (chunked l n) = l.
Proof. intros Hn. by apply chunked_fuel_concat. Qed.

Section Batches.
Context `{Cb : Collaborators}.
Variable self : Analysis.
Variable integrate : SkyCoord → Err Orbit.
Hypothesis integrate_each : ∀ coords,
  compute_orbit (self_backend self) coords (self_potential self) (self_dt self)
    (self_steps self) (self_pattern_speed self) = emap integrate coords.

Lemma fill_pixels_app (image : ndarray) (l1 l2 : list (list nat)) :
  fill_pixels self integrate image (l1 ++ l2) =
  ebind (fill_pixels self integrate image l1)
    (λ image', fill_pixels self integrate image' l2).
Proof.
  revert image. induction l1 as [|pixel rest IH]; intros image; simpl; [done|].
  destruct (pixel_params self pixel) as [e|params]; [done|simpl].
  destruct (fn_call _ params) as [e|coord]; [done|simpl].
  destruct (integrate coord) as [e|orbit]; [done|simpl].
  destruct (evaluate_measure orbit) as [e|measure]; [done|simpl].
  destruct (nd_set image pixel measure) as [e|image']; [done|simpl].
  apply IH.
Qed.

(** A batch whose coordinates are integrated one by one fills the image as
    the pixel-by-pixel loop does. *)
Lemma batch_fill_pixels (pixels : list (list nat)) (image image' : ndarray) :
  ebind (emap (λ pixel, ebind (pixel_params self pixel)
                 (fn_call (self_ic_function self))) pixels)
    (λ coords, ebind (emap integrate coords)
      (λ orbits, write_measures image (zip pixels orbits))) = inr image' ↔
  fill_pixels self integrate image pixels = inr image'.
Proof.
  revert image. induction pixels as [|pixel rest IH]; intros image; [done|].
  cbn [emap fill_pixels].
  destruct (pixel_params self pixel) as [e|params]; [done|cbn [ebind]].
  destruct (fn_call _ params) as [e|coord]; [done|cbn [ebind]].
  destruct (emap _ rest) as [e|coords] eqn:Hcoords; cbn [ebind emap].
  - split; [done|].
    destruct (integrate coord) as [e'|orbit]; [done|cbn [ebind]].
    destruct (evaluate_measure orbit) as [e'|measure]; [done|cbn [ebind]].
    destruct (nd_set image pixel measure) as [e'|image1]; [done|cbn [ebind]].
    intros Hfill. by apply IH in Hfill.
  - destruct (integrate coord) as [e|orbit]; [done|cbn [ebind]].
    destruct (emap integrate coords) as [e|orbits] eqn:Horbits; cbn [ebind].
    + split; [done|].
      destruct (evaluate_measure orbit) as [e'|measure]; [done|cbn [ebind]].
      destruct (nd_set image pixel measure) as [e'|image1]; [done|cbn [ebind]].
      intros Hfill. apply IH in Hfill. cbn [ebind] in Hfill.
      by rewrite Horbits in Hfill.
    + cbn [zip zip_with write_measures].
      destruct (evaluate_measure orbit) as [e'|measure]; [done|cbn [ebind]].
      destruct (nd_set image pixel measure) as [e'|image1]; [done|cbn [ebind]].
      rewrite <- IH. cbn [ebind]. by rewrite Horbits.
Qed.

Lemma run_batch_fill_pixels (pixels : list (list nat)) (image image' : ndarray) :
  outcome (run_batch self image pixels) = inr image' ↔
  fill_pixels self integrate image pixels = inr image'.
Proof.
  rewrite <- batch_fill_pixels. unfold run_batch, collapse_coords.
  run_outcome.
  destruct (emap _ pixels) as [e|coords]; [done|cbn [ebind]].
  run_outcome. by rewrite integrate_each.
Qed.

Lemma run_batches_fill_pixels (batches : list (list (list nat)))
    (image image' : ndarray) :
  outcome (run_batches self image batches) = inr image' ↔
  fill_pixels self integrate image (concat batches) = inr image'.
Proof.
  revert image. induction batches as [|pixels rest IH]; intros image.
  - done.
  - cbn [run_batches concat]. rewrite fill_pixels_app. run_outcome.
    destruct (outcome (run_batch self image pixels)) as [e|image1] eqn:Hbatch.
    + split; [done|].
      destruct (fill_pixels self integrate image pixels) as [e'|image1] eqn:Hfill;
        [done|].
      apply run_batch_fill_pixels in Hfill. congruence.
    + apply run_batch_fill_pixels in Hbatch. rewrite Hbatch. cbn [ebind].
      apply IH.
Qed.

End Batches.

Section BatchSize.
Context `{Cb : Collaborators}.

(** C5, as the code has it. For a backend that integrates every coordinate
    of a batch by itself, in order, the engine constructed with one valid
    batch size is the engine constructed with any other: the construction
    succeeds again and gives the same instance, image included. (That a
    configuration run twice gives the same image needs no proof here: the
    constructor is a function of its arguments and of its collaborators.) *)
Theorem image_independent_of_chunksize (ic_function : pyfunc SkyCoord)
    (values : gmap string (list Q))
    (potential_function : pyfunc (option Potential)) (dt : Q) (steps : Z)
    (pattern_speed : Q) (backend : backend_arg) (chunksize chunksize' : Z)
    (progressbar progressbar' : bool) (log : list event) (x : Analysis)
    (integrate : SkyCoord → Err Orbit) :
  __init__ ic_function values potential_function dt steps pattern_speed backend
    chunksize progressbar false = (log, inr x) →
  (∀ coords,
     compute_orbit (self_backend x) coords (self_potential x) (self_dt x)
       (self_steps x) (self_pattern_speed x) = emap integrate coords) →
  (0 < chunksize' < Z.of_nat (self_size x))%Z →
  ∃ log', __init__ ic_function values potential_function dt steps pattern_speed
    backend chunksize' progressbar' false = (log', inr x).
Proof.
  intros Hinit Heach Hchunk'.
  apply init_inr_inv in Hinit
    as (shape & potential & b & image & Haxes & Hshape & Hpotential & Hdt & Hsteps
        & Hb & Hchunk & -> & Hrun).
  cbn [self_backend self_potential self_dt self_steps self_pattern_speed self_size]
    in Heach, Hchunk'.
  set (self := mk_Analysis ic_function (fn_args ic_function) values shape
    (prod shape) potential_function potential dt steps pattern_speed b
    (zeros shape)) in *.
  assert (Hfill : fill_pixels self integrate (zeros shape) (ndindex shape) = inr image).
  { apply (run_batches_fill_pixels self integrate Heach) in Hrun.
    by rewrite chunked_concat in Hrun by lia. }
  assert (Hrun' : outcome (run_batches self (zeros shape)
    (chunked (ndindex shape) (Z.to_nat chunksize'))) = inr image).
  { apply (run_batches_fill_pixels self integrate Heach).
    by rewrite chunked_concat by lia. }
  eexists. rewrite init_unfold, Haxes, Hshape, Hpotential, Hdt, Hb.
  destruct (Z.leb_spec steps 0) as [|_]; [lia|].
  destruct (Z.leb_spec chunksize' 0) as [|_]; [lia|].
  destruct (Z.geb_spec chunksize' (Z.of_nat (prod shape))) as [|_]; [lia|].
  cbv zeta. fold self. f_equal.
  unfold _construct_image.
  destruct (Z.eqb_spec chunksize' 0) as [|_]; [lia|].
  destruct (Z.ltb_spec chunksize' 0) as [|_]; [lia|].
  run_outcome. cbn [self_image self_shape self]. fold self.
  rewrite Hrun'. cbn [ebind]. by run_outcome.
Qed.

End BatchSize.

(** ** The scenario, run *)

Lemma emap_inr {A} (l : list A) : emap (λ a, inr a) l = inr l.
Proof. induction l as [|a l IH]; [done|]. simpl. by rewrite IH. Qed.

(** C10. The loader hands the stored array to the instance as it is: a load
    that succeeds has the dataset's array as its image, and nothing compares
    the shape of that array with the grid shape, so the two can differ: here
    an array with two rows of two cells on a grid of three points. *)
Theorem loaded_image_shape_unchecked :
  (∀ (D : Domain) (Cb : @Collaborators D) (f : h5file) (log : list event)
     (self : @Analysis D),
     read_from_hdf5 f = (log, inr self) →
     ∃ dset, f !! cls_name = Some dset ∧ self_image self = ds_data dset) ∧
  (∃ log self,
     read_from_hdf5 (Cb := demo_world) demo_file_other_shape = (log, inr self) ∧
     nd_shape (self_image self) = [2; 2]%nat ∧
     self_shape self = [3]%nat).
Proof.
  split.
  - intros D Cb. apply loaded_image_verbatim.
  - eexists _, _. split; [vm_compute; reflexivity|]. done.
Qed.

(** C1: the container of the scenario with both sources removed. *)
Lemma load_without_sources_raises_witness :
  read_from_hdf5 (Cb := demo_world) demo_file_without_sources =
    ([ Warn "No potential function defined.";
       Warn "No potential function defined.";
       CallPotentialFunction ],
     inl (ValueError
       "chunksize must be less than total number of starting coordinates")).
Proof.
  apply (proj2 (load_without_sources_raises (Cb := demo_world)
    demo_file_without_sources
    (mk_dataset (mk_ndarray [3%nat] [1; 2; 3]%Q)
       (delete "potfunc" (delete "icfunc" (demo_attrs "GalpyBackend"))))
    eq_refl eq_refl eq_refl) GalpyBackend 1%Q 10%Z 0%Q);
    by vm_compute.
Defined.

(** C2: an engine with a backend of the caller's own is saved, and the load
    of what was saved raises: pidgey has no attribute of that class name. *)
Lemma round_trip_fails_for_custom_backend :
  ∃ log x,
    demo_run (BackendObject trivial_backend) 1 = (log, inr x) ∧
    outcome (read_from_hdf5 (Cb := demo_world) (save (Cb := demo_world) x))
      = inl (AttributeError "TrivialBackend").
Proof. eexists _, _. split; [vm_compute; reflexivity|]. by vm_compute. Qed.

(** C2: the scenario's engine on pidgey's backend, saved and loaded. *)
Lemma save_then_load_round_trip_witness :
  ∃ log x,
    demo_run NoBackend 2 = (log, inr x) ∧
    ∃ y, read_from_hdf5 (Cb := demo_world) (save (Cb := demo_world) x)
           = ([CallPotentialFunction], inr y) ∧
      self_image y = self_image x ∧
      self_dt y = self_dt x ∧
      self_steps y = self_steps x ∧
      self_pattern_speed y = self_pattern_speed x ∧
      self_axis_names y = self_axis_names x ∧
      self_values y = self_values x ∧
      self_shape y = self_shape x ∧
      self_backend y = Pidgey GalpyBackend.
Proof.
  eexists _, _. split; [vm_compute; reflexivity|].
  eapply (save_then_load_round_trip (Cb := demo_world) demo_ic demo_values
    demo_potential 1%Q 10%Z 0%Q NoBackend 2%Z true false _ _ GalpyBackend).
  - vm_compute; reflexivity.
  - reflexivity.
  - intros key Hkey. unfold reserved_keys in Hkey.
    repeat (apply elem_of_cons in Hkey as [->|Hkey]; [by vm_compute|]).
    by apply elem_of_nil in Hkey.
  - vm_compute; reflexivity.
  - reflexivity.
  - vm_compute; reflexivity.
  - reflexivity.
Defined.

(** C3: a zero batch size together with an unknown backend name. The error
    is the one of the backend, none of the errors of the Run Parameters. *)
Lemma backend_error_hides_chunksize_error :
  outcome (demo_run (BackendName "nonesuch") 0)
    = inl (ValueError "Unrecognized backend: nonesuch") ∧
  ValueError "Unrecognized backend: nonesuch" ∉ run_parameter_errors.
Proof.
  split; [by vm_compute|].
  unfold run_parameter_errors. rewrite !elem_of_cons, elem_of_nil.
  intros [?|[?|[?|[?|[]]]]]; discriminate.
Qed.

(** C3: the same input, and a batch size as large as the grid on a backend
    that resolves. *)
Lemma checks_in_source_order_witness :
  demo_run (BackendName "nonesuch") 0
    = ([CallPotentialFunction], inl (ValueError "Unrecognized backend: nonesuch")) ∧
  demo_run (BackendName "galpy") 3
    = ([CallPotentialFunction],
       inl (ValueError
         "chunksize must be less than total number of starting coordinates")).
Proof.
  split.
  - apply (checks_in_source_order (Cb := demo_world) demo_ic demo_values
      demo_potential 1%Q 10%Z 0%Q (BackendName "nonesuch") 0%Z true false
      [3%nat] (Some tt) eq_refl eq_refl eq_refl _ eq_refl); by vm_compute.
  - refine (proj2 (proj2 (proj2 (proj2 (checks_in_source_order (Cb := demo_world)
      demo_ic demo_values demo_potential 1%Q 10%Z 0%Q (BackendName "galpy") 3%Z
      true false [3%nat] (Some tt) eq_refl eq_refl eq_refl _ eq_refl)))
      _ _ (Pidgey GalpyBackend) eq_refl) _ _); by vm_compute.
Defined.

(** C4: a container that names the class [GalpyBackend] is loaded onto
    pidgey's Galpy backend, though the constructor's table knows no such
    name; and a container that names [__dir__], which every module answers
    to, is loaded as well: its backend is the list that call returns, none
    of the three the table can give. *)
Lemma load_ignores_constructor_name_table :
  (∃ log self,
     read_from_hdf5 (Cb := demo_world) (demo_file "GalpyBackend") = (log, inr self) ∧
     self_backend self = Pidgey GalpyBackend) ∧
  backend_of_name (H := demo_domain) "GalpyBackend"
    = inl (ValueError "Unrecognized backend: GalpyBackend") ∧
  (∃ log self,
     read_from_hdf5 (Cb := demo_world) (demo_file "__dir__") = (log, inr self) ∧
     self_backend self = dir_list ∧
     ∀ name, backend_of_name (H := demo_domain) name ≠ inr (self_backend self)).
Proof.
  split; [|split; [by vm_compute|]].
  - eexists _, _. split; [vm_compute; reflexivity|done].
  - eexists _, _. split; [vm_compute; reflexivity|]. split; [done|].
    intros name [[_ Hb]|[[_ Hb]|[_ Hb]]]%backend_of_name_inr; discriminate Hb.
Qed.

(** C4: the name [gala] of the constructor's table, and the scenario's
    container. *)
Lemma backend_restored_by_class_name_witness :
  (ebind (pidgey_getattr (Cb := demo_world)
            (class_name_of (@Pidgey demo_domain GalaBackend)))
     (call_backend_cls (H := demo_domain))
     = inr (BackendObject (@Pidgey demo_domain GalaBackend)) ∧
   backend_of_name (class_name_of (@Pidgey demo_domain GalaBackend)) =
     inl (B := @Backend demo_domain)
       (ValueError ("Unrecognized backend: "
          ++ class_name_of (@Pidgey demo_domain GalaBackend)))) ∧
  ∃ log self,
    read_from_hdf5 (Cb := demo_world) (demo_file "GalpyBackend") = (log, inr self) ∧
    ∃ dset name a backend,
      demo_file "GalpyBackend" !! cls_name (Collaborators := demo_world) = Some dset ∧
      ds_attrs dset !! "backend" = Some (AText name) ∧
      pidgey_getattr (Cb := demo_world) name = inr a ∧
      call_backend_cls a = inr backend ∧
      resolve_backend (Cb := demo_world) backend (self_potential self)
        = inr (self_backend self) ∧
      ∀ k, name = class_name_of (@Pidgey demo_domain k) →
        self_backend self = Pidgey k.
Proof.
  split.
  - apply (proj1 (backend_restored_by_class_name (Cb := demo_world)) "gala").
    reflexivity.
  - eexists _, _. split; [vm_compute; reflexivity|].
    eapply (proj2 (backend_restored_by_class_name (Cb := demo_world))
      (demo_file "GalpyBackend")).
    vm_compute; reflexivity.
Defined.

(** C5: the batch-dependent backend on the three grid points. One orbit per
    batch gives the image 1, 1, 1; two per batch give 2, 2, 1 (the last batch
    holds the one remaining point). Both batch sizes are valid, and the
    backend is deterministic. *)
Lemma image_depends_on_chunksize_of_batch_backend :
  ∃ log1 x1 log2 x2,
    demo_run (BackendObject batch_backend) 1 = (log1, inr x1) ∧
    demo_run (BackendObject batch_backend) 2 = (log2, inr x2) ∧
    nd_data (self_image x1) = [1; 1; 1]%Q ∧
    nd_data (self_image x2) = [2; 2; 1]%Q ∧
    self_image x1 ≠ self_image x2.
Proof.
  eexists _, _, _, _.
  split; [vm_compute; reflexivity|]. split; [vm_compute; reflexivity|].
  split; [done|]. split; [done|]. simpl. intros [=].
Qed.

(** C5: the backend that integrates each coordinate by itself, with one and
    with two orbits per batch. *)
Lemma image_independent_of_chunksize_witness :
  ∃ log x,
    demo_run (BackendObject trivial_backend) 1 = (log, inr x) ∧
    ∃ log', demo_run (BackendObject trivial_backend) 2 = (log', inr x).
Proof.
  eexists _, _. split; [vm_compute; reflexivity|].
  eapply (image_independent_of_chunksize (Cb := demo_world) demo_ic demo_values
    demo_potential 1%Q 10%Z 0%Q (BackendObject trivial_backend) 1%Z 2%Z true true
    _ _ (λ coord, inr coord)).
  - vm_compute; reflexivity.
  - intros coords. symmetry. apply (emap_inr coords).
  - by vm_compute.
Defined.

(** C6: two axes supplied as [vT], [R] for a constructor declared as
    [ic2(R, vT)]: the shape is (2, 3), the size 6. *)
Lemma shape_follows_parameter_order_witness :
  ∃ log self,
    __init__ (Cb := demo_world) demo_ic2 demo_values2 demo_potential 1%Q 10%Z 0%Q
      NoBackend 2 true true = (log, inr self) ∧
    self_shape self = [2; 3]%nat ∧
    self_size self = 6%nat ∧
    (Forall2 (λ name n, ∃ seq, demo_values2 !! name = Some seq ∧ n = length seq)
       (fn_args demo_ic2) (self_shape self) ∧
     self_size self = foldr Nat.mul 1%nat (self_shape self) ∧
     ∀ items : list (string * list Q),
       NoDup items.*1 → items ≡ₚ map_to_list demo_values2 →
       __init__ (Cb := demo_world) demo_ic2 (list_to_map items) demo_potential
         1%Q 10%Z 0%Q NoBackend 2 true true = (log, inr self)).
Proof.
  eexists _, _. split; [vm_compute; reflexivity|].
  split; [done|]. split; [done|].
  apply (shape_follows_parameter_order (Cb := demo_world) demo_ic2 demo_values2
    demo_potential 1%Q 10%Z 0%Q NoBackend 2%Z true true).
  vm_compute; reflexivity.
Defined.

(** C7: an axis named [y] for a constructor declared as [ic(x)]. *)
Lemma mismatched_axes_are_refused_witness :
  outcome (__init__ (Cb := demo_world) demo_ic {[ "y" := [1; 2]%Q ]} demo_potential
    1%Q 10%Z 0%Q NoBackend 1 true false)
  = inl (ValueError "values and ic_function signature do not correspond") ∧
  integration_calls (events (__init__ (Cb := demo_world) demo_ic
    {[ "y" := [1; 2]%Q ]} demo_potential 1%Q 10%Z 0%Q NoBackend 1 true false))
  = 0%nat.
Proof.
  apply (mismatched_axes_are_refused (Cb := demo_world)).
  intros Heq.
  assert (Hin : "x" ∈ dom ({[ "y" := [1; 2]%Q ]} : gmap string (list Q))).
  { rewrite Heq. by apply elem_of_list_to_set, list_elem_of_singleton. }
  rewrite dom_singleton_L in Hin. by apply elem_of_singleton in Hin.
Defined.

(** C8: on the three grid points the batch sizes 1 and 2 construct, and the
    batch sizes 0, -1, 3 and 4 do not. *)
Lemma chunksize_strictly_between_witness :
  (∃ log self, demo_run (BackendObject trivial_backend) 2 = (log, inr self) ∧
     (0 < 2 < Z.of_nat (self_size self))%Z) ∧
  (∃ e, outcome (demo_run (BackendObject trivial_backend) 0) = inl e) ∧
  (∃ e, outcome (demo_run (BackendObject trivial_backend) (-1)) = inl e) ∧
  (∃ e, outcome (demo_run (BackendObject trivial_backend) 3) = inl e) ∧
  (∃ e, outcome (demo_run (BackendObject trivial_backend) 4) = inl e).
Proof.
  split; [|split; [|split; [|split]]].
  - eexists _, _. split; [vm_compute; reflexivity|].
    eapply (proj1 (chunksize_strictly_between (Cb := demo_world) demo_ic
      demo_values demo_potential 1%Q 10%Z 0%Q (BackendObject trivial_backend)
      2%Z true false)).
    vm_compute; reflexivity.
  - apply (proj2 (chunksize_strictly_between (Cb := demo_world) demo_ic
      demo_values demo_potential 1%Q 10%Z 0%Q (BackendObject trivial_backend)
      0%Z true false)).
    left. by vm_compute.
  - apply (proj2 (chunksize_strictly_between (Cb := demo_world) demo_ic
      demo_values demo_potential 1%Q 10%Z 0%Q (BackendObject trivial_backend)
      (-1)%Z true false)).
    left. by vm_compute.
  - apply (proj2 (chunksize_strictly_between (Cb := demo_world) demo_ic
      demo_values demo_potential 1%Q 10%Z 0%Q (BackendObject trivial_backend)
      3%Z true false)).
    right. exists [3%nat]. split; [reflexivity|by vm_compute].
  - apply (proj2 (chunksize_strictly_between (Cb := demo_world) demo_ic
      demo_values demo_potential 1%Q 10%Z 0%Q (BackendObject trivial_backend)
      4%Z true false)).
    right. exists [3%nat]. split; [reflexivity|by vm_compute].
Defined.

(** C9: the same axis [y] for [ic(x)]; the potential constructor of the
    scenario is not called. *)
Lemma potential_function_not_called_on_mismatch_witness :
  outcome (__init__ (Cb := demo_world) demo_ic {[ "y" := [1; 2]%Q ]} demo_potential
    1%Q 10%Z 0%Q NoBackend 1 true false)
  = inl (ValueError "values and ic_function signature do not correspond") ∧
  potential_calls (events (__init__ (Cb := demo_world) demo_ic
    {[ "y" := [1; 2]%Q ]} demo_potential 1%Q 10%Z 0%Q NoBackend 1 true false))
  = 0%nat.
Proof.
  apply (proj1 (potential_function_not_called_on_mismatch (Cb := demo_world)
    demo_ic {[ "y" := [1; 2]%Q ]} demo_potential 1%Q 10%Z 0%Q NoBackend 1%Z
    true false)).
  by vm_compute.
Defined.

(** * Further properties of the engine *)

(** ** The grid in row-major order *)

Lemma prod_cons (n : nat) (shape : list nat) : prod (n :: shape) = (n * prod shape)%nat.
Proof. done. Qed.

Lemma ndindex_length (shape : list nat) : length (ndindex shape) = prod shape.
Proof.
  induction shape as [|n rest IH]; [done|].
  rewrite prod_cons. cbn [ndindex]. rewrite <- IH. clear IH.
  generalize 0%nat. induction n as [|n IHn]; intros start; [done|].
  cbn [seq]. rewrite bind_cons, length_app, length_fmap, IHn. lia.
Qed.

(** The offsets of the pixels of a block of rows. *)
Lemma ravel_rows (n : nat) (rest : list nat) (start rows : nat) :
  (start + rows ≤ n)%nat →
  ravel rest <$> ndindex rest = Some <$> seq 0 (prod rest) →
  ravel (n :: rest) <$> (seq start rows ≫= λ i, (λ p, i :: p) <$> ndindex rest) =
  Some <$> seq (start * prod rest) (rows * prod rest).
Proof.
  intros Hle Hrest. revert start Hle.
  induction rows as [|rows IH]; intros start Hle; [done|].
  cbn [seq]. rewrite bind_cons, fmap_app, IH by lia.
  replace (S rows * prod rest)%nat with (prod rest + rows * prod rest)%nat by lia.
  rewrite seq_app, fmap_app. f_equal; [|f_equal; f_equal; lia].
  rewrite <- list_fmap_compose.
  transitivity ((fmap (λ off, start * prod rest + off)%nat) <$> (ravel rest <$> ndindex rest)).
  - rewrite <- list_fmap_compose. apply list_fmap_ext. intros _ p _. simpl.
    by rewrite decide_True by lia.
  - rewrite Hrest.
    assert (seq (start * prod rest) (prod rest) =
      Nat.add (start * prod rest) <$> seq 0 (prod rest)) as ->.
    { rewrite fmap_add_seq. f_equal. lia. }
    by rewrite <- !list_fmap_compose.
Qed.

(** The pixels of [np.ndindex] are the cells of the array, in order. *)
Lemma ravel_ndindex (shape : list nat) :
  ravel shape <$> ndindex shape = Some <$> seq 0 (prod shape).
Proof.
  induction shape as [|n rest IH]; [done|].
  cbn [ndindex]. rewrite (ravel_rows n rest 0 n) by (lia || done).
  by rewrite prod_cons.
Qed.

(** Every pixel of the grid is within the shape, axis by axis. *)
Lemma ndindex_bounds (shape : list nat) (pixel : list nat) :
  pixel ∈ ndindex shape → Forall2 (λ i n, i < n)%nat pixel shape.
Proof.
  revert pixel. induction shape as [|n rest IH]; intros pixel; cbn [ndindex].
  - intros ->%list_elem_of_singleton. constructor.
  - intros (i & Hp & Hi)%list_elem_of_bind.
    apply list_elem_of_fmap in Hp as (p & -> & Hp).
    apply elem_of_seq in Hi. constructor; [lia|by apply IH].
Qed.

(** ** Comprehensions that may raise *)

Lemma emap_lookup {A B} (f : A → Err B) (l : list A) (bs : list B) (i : nat) (a : A) :
  emap f l = inr bs → l !! i = Some a → ∃ b, f a = inr b ∧ bs !! i = Some b.
Proof.
  revert bs i. induction l as [|a' l IH]; intros bs i; [done|].
  cbn [emap]. destruct (f a') as [e|b'] eqn:Hb'; [done|cbn [ebind]].
  destruct (emap f l) as [e|bs'] eqn:Hbs'; [done|cbn [ebind]].
  intros [= <-]. destruct i as [|i]; simpl.
  - intros [= <-]. by exists b'.
  - by apply IH.
Qed.

Lemma emap_total {A B} (f : A → Err B) (l : list A) :
  (∀ a, a ∈ l → ∃ b, f a = inr b) → ∃ bs, emap f l = inr bs.
Proof.
  induction l as [|a l IH]; intros Hall; [by exists []|].
  destruct (Hall a) as [b Hb]; [left|].
  destruct IH as [bs Hbs]; [intros a' Ha'; apply Hall; by right|].
  exists (b :: bs). cbn [emap]. by rewrite Hb, Hbs.
Qed.

(** ** The image, cell by cell *)

Section ImageContent.
Context `{Cb : Collaborators}.
Implicit Types (self : Analysis) (integrate : SkyCoord → Err Orbit).

Lemma fill_pixels_cons self integrate (image : ndarray) (pixel : list nat)
    (rest : list (list nat)) :
  fill_pixels self integrate image (pixel :: rest) =
  ebind (pixel_measure self integrate pixel) (λ measure,
  ebind (nd_set image pixel measure) (λ image',
  fill_pixels self integrate image' rest)).
Proof.
  cbn [fill_pixels]. unfold pixel_measure.
  destruct (pixel_params self pixel) as [e|params]; [done|cbn [ebind]].
  destruct (fn_call _ params) as [e|coord]; [done|cbn [ebind]].
  by destruct (integrate coord) as [e|orbit].
Qed.

(** Pixels whose offsets are consecutive are written one after the other
    into the cells, and into no other cell. *)
Lemma fill_pixels_data self integrate (shape : list nat) (pixels : list (list nat))
    (written rest : list Q) (image' : ndarray) :
  ravel shape <$> pixels = Some <$> seq (length written) (length pixels) →
  (length pixels ≤ length rest)%nat →
  fill_pixels self integrate (mk_ndarray shape (written ++ rest)) pixels = inr image' ↔
  ∃ measures, emap (pixel_measure self integrate) pixels = inr measures ∧
    image' = mk_ndarray shape (written ++ measures ++ drop (length pixels) rest).
Proof.
  revert written rest. induction pixels as [|pixel pixels IH]; intros written rest.
  - intros _ _. cbn [fill_pixels emap]. split.
    + intros [= <-]. by exists [].
    + by intros (measures & [= <-] & ->).
  - intros Hoff Hlen. cbn [length seq fmap list_fmap] in Hoff.
    injection Hoff as Hpixel Hoff.
    destruct rest as [|r rest]; [simpl in Hlen; lia|].
    rewrite fill_pixels_cons. cbn [emap].
    destruct (pixel_measure self integrate pixel) as [e|measure]; cbn [ebind].
    { split; [done|]. by intros (measures & ? & _). }
    unfold nd_set. cbn [nd_shape nd_data]. rewrite Hpixel.
    replace (<[length written := measure]> (written ++ r :: rest))
      with ((written ++ [measure]) ++ rest).
    2: { rewrite <- (Nat.add_0_r (length written)), insert_app_r.
         by rewrite <- app_assoc. }
    cbn [ebind]. rewrite IH.
    + split.
      * intros (measures & -> & ->). exists (measure :: measures).
        split; [done|]. by rewrite <- app_assoc.
      * intros (measures & Hm & ->).
        destruct (emap _ pixels) as [e|measures']; [done|].
        cbn [ebind] in Hm. injection Hm as <-.
        exists measures'. split; [done|]. by rewrite <- app_assoc.
    + rewrite length_app. cbn [length]. by rewrite Nat.add_1_r.
    + simpl in Hlen. lia.
Qed.

(** The loop over the whole grid, on an image of the grid's shape: it
    succeeds exactly when every pixel has a measure, and the image is then
    the measures in row-major order, whatever the image held before. *)
Lemma fill_grid self integrate (shape : list nat) (data : list Q) (image' : ndarray) :
  length data = prod shape →
  fill_pixels self integrate (mk_ndarray shape data) (ndindex shape) = inr image' ↔
  ∃ measures, emap (pixel_measure self integrate) (ndindex shape) = inr measures ∧
    image' = mk_ndarray shape measures.
Proof.
  intros Hdata.
  rewrite (fill_pixels_data self integrate shape (ndindex shape) [] data).
  - rewrite ndindex_length, <- Hdata, drop_all.
    by setoid_rewrite app_nil_r.
  - rewrite ndindex_length. apply ravel_ndindex.
  - rewrite ndindex_length. lia.
Qed.

End ImageContent.

(** ** Construction, from its checks to its image *)

Lemma emap_raises {A B} (f : A → Err B) (l : list A) (a : A) (e : exn) :
  a ∈ l → f a = inl e → ∃ e', emap f l = inl e'.
Proof.
  induction l as [|a' l IH]; intros Hin Ha; [by apply elem_of_nil in Hin|].
  cbn [emap]. destruct (f a') as [e'|b] eqn:Hb; [by exists e'|cbn [ebind]].
  apply elem_of_cons in Hin as [->|Hin]; [congruence|].
  destruct (IH Hin Ha) as [e' ->]. by exists e'.
Qed.

Section Construction.
Context `{Cb : Collaborators}.
Implicit Types (ic_function : pyfunc SkyCoord) (values : gmap string (list Q)).
Implicit Types (potential_function : pyfunc (option Potential)).
Implicit Types (backend : backend_arg) (self : Analysis).
Implicit Types (integrate : SkyCoord → Err Orbit).

(** What line 93 computed, when it did not raise. *)
Lemma grid_shape_inr (axis_names : list string) values (shape : list nat) :
  grid_shape axis_names values = inr shape →
  Forall2 (λ name n, ∃ seq, values !! name = Some seq ∧ n = length seq)
    axis_names shape.
Proof.
  unfold grid_shape. revert shape.
  induction axis_names as [|name rest IH]; intros shape; cbn [emap].
  - intros [= <-]. constructor.
  - destruct (values !! name) as [seq|] eqn:Hseq; [cbn [ebind]|done].
    destruct (emap _ rest) as [e|shape'] eqn:Hrest; [done|cbn [ebind]].
    intros [= <-]. constructor; [by exists seq|by apply IH].
Qed.

(** Line 144 on a pixel within the shape: one parameter per axis, each the
    value of its axis at the pixel's index. *)
Lemma pixel_params_in_bounds values (axis_names : list string) (shape pixel : list nat) :
  Forall2 (λ name n, ∃ seq, values !! name = Some seq ∧ n = length seq)
    axis_names shape →
  Forall2 (λ i n, i < n)%nat pixel shape →
  ∃ params,
    emap (λ '(i, ax), match values !! ax with
                      | Some seq => match seq !! i with
                                    | Some v => inr v
                                    | None => inl IndexError
                                    end
                      | None => inl (KeyError ax)
                      end) (zip pixel axis_names) = inr params ∧
    Forall3 (λ i ax v, ∃ seq, values !! ax = Some seq ∧ seq !! i = Some v)
      pixel axis_names params.
Proof.
  intros Hshape. revert pixel.
  induction Hshape as [|name n names shape (seq & Hseq & ->) _ IH]; intros pixel Hpixel.
  - apply Forall2_nil_inv_r in Hpixel as ->. exists []. split; [done|constructor].
  - apply Forall2_cons_inv_r in Hpixel as (i & p & Hi & Hp & ->).
    destruct (IH p Hp) as (params & Hparams & Hall).
    destruct (lookup_lt_is_Some_2 seq i Hi) as [v Hv].
    exists (v :: params). cbn [zip zip_with emap]. rewrite Hseq, Hv. cbn [ebind].
    rewrite Hparams. split; [done|]. constructor; [by exists seq|done].
Qed.

(** The image of an eager construction, under the checks it passed: the
    construction returns exactly when every pixel of the grid has a measure,
    and the image is then those measures in row-major order. *)
Lemma init_image_iff ic_function values potential_function (dt : Q) (steps : Z)
    (pattern_speed : Q) backend (chunksize : Z) (progressbar : bool)
    (shape : list nat) (potential : option Potential) (b : Backend) integrate
    (x : Analysis) :
  axes_mismatch (fn_args ic_function) values = false →
  grid_shape (fn_args ic_function) values = inr shape →
  fn_call potential_function [] = inr potential →
  Qle_bool dt 0 = false → (0 < steps)%Z →
  resolve_backend backend potential = inr b →
  (0 < chunksize < Z.of_nat (prod shape))%Z →
  (∀ coords, compute_orbit b coords potential dt steps pattern_speed
     = emap integrate coords) →
  outcome (__init__ ic_function values potential_function dt steps pattern_speed
    backend chunksize progressbar false) = inr x ↔
  ∃ measures,
    emap (pixel_measure
      (mk_Analysis ic_function (fn_args ic_function) values shape (prod shape)
         potential_function potential dt steps pattern_speed b (zeros shape))
      integrate) (ndindex shape) = inr measures ∧
    x = mk_Analysis ic_function (fn_args ic_function) values shape (prod shape)
          potential_function potential dt steps pattern_speed b
          (mk_ndarray shape measures).
Proof.
  intros Haxes Hshape Hpot Hdt Hsteps Hb Hchunk Heach.
  rewrite init_unfold, Haxes, Hshape, Hpot, Hdt, Hb.
  destruct (Z.leb_spec steps 0) as [|_]; [lia|].
  destruct (Z.leb_spec chunksize 0) as [|_]; [lia|].
  destruct (Z.geb_spec chunksize (Z.of_nat (prod shape))) as [|_]; [lia|].
  cbv zeta.
  set (self := mk_Analysis ic_function (fn_args ic_function) values shape
    (prod shape) potential_function potential dt steps pattern_speed b
    (zeros shape)).
  unfold outcome at 1. cbn [snd]. unfold _construct_image.
  destruct (Z.eqb_spec chunksize 0) as [|_]; [lia|].
  destruct (Z.ltb_spec chunksize 0) as [|_]; [lia|].
  run_outcome. cbn [self_image self_shape self]. fold self.
  pose proof (λ image, run_batches_fill_pixels self integrate Heach
    (chunked (ndindex shape) (Z.to_nat chunksize)) (zeros shape) image) as Hrun.
  rewrite chunked_concat in Hrun by lia.
  pose proof (λ image, fill_grid self integrate shape (replicate (prod shape) 0%Q)
    image (length_replicate _ _)) as Hfill.
  fold (zeros shape) in Hfill.
  split.
  - destruct (outcome (run_batches self (zeros shape) _)) as [e|image] eqn:Hout;
      [done|cbn [ebind]].
    run_outcome. intros [= <-].
    pose proof (proj1 (Hrun image) eq_refl) as Himage.
    apply Hfill in Himage as (measures & Hmeasures & ->).
    by exists measures.
  - intros (measures & Hmeasures & ->).
    assert (Hout : outcome (run_batches self (zeros shape)
      (chunked (ndindex shape) (Z.to_nat chunksize))) = inr (mk_ndarray shape measures)).
    { apply Hrun, Hfill. by exists measures. }
    rewrite Hout. cbn [ebind]. by run_outcome.
Qed.

End Construction.

Section ConstructionProperties.
Context `{Cb : Collaborators}.
Implicit Types (ic_function : pyfunc SkyCoord) (values : gmap string (list Q)).
Implicit Types (potential_function : pyfunc (option Potential)).
Implicit Types (backend : backend_arg) (self : Analysis).
Implicit Types (integrate : SkyCoord → Err Orbit).

(** X1. The image of a constructed engine, for a backend that integrates
    coordinate by coordinate: it has the shape of the grid and as many cells
    as the grid has points, and the cell of every grid position holds the
    measure of the orbit started from that position's parameters. *)
Theorem image_holds_the_measures ic_function values potential_function (dt : Q)
    (steps : Z) (pattern_speed : Q) backend (chunksize : Z) (progressbar : bool)
    (log : list event) (x : Analysis) integrate :
  __init__ ic_function values potential_function dt steps pattern_speed backend
    chunksize progressbar false = (log, inr x) →
  (∀ coords,
     compute_orbit (self_backend x) coords (self_potential x) (self_dt x)
       (self_steps x) (self_pattern_speed x) = emap integrate coords) →
  nd_shape (self_image x) = self_shape x ∧
  length (nd_data (self_image x)) = self_size x ∧
  ∀ pixel, pixel ∈ ndindex (self_shape x) →
    ∃ measure, pixel_measure x integrate pixel = inr measure ∧
      nd_get (self_image x) pixel = inr measure.
Proof.
  intros Hinit Heach.
  pose proof Hinit as Hinv. apply init_inr_inv in Hinv
    as (shape & potential & b & image & Haxes & Hshape & Hpot & Hdt & Hsteps
        & Hb & Hchunk & Hx & _).
  assert (Hout : outcome (__init__ ic_function values potential_function dt steps
    pattern_speed backend chunksize progressbar false) = inr x) by by rewrite Hinit.
  subst x. cbn [self_backend self_potential self_dt self_steps self_pattern_speed]
    in Heach.
  apply (init_image_iff ic_function values potential_function dt steps
    pattern_speed backend chunksize progressbar shape potential b integrate)
    in Hout as (measures & Hmeasures & Himage); [|done..].
  injection Himage as ->.
  cbn [self_image self_shape self_size nd_shape nd_data].
  pose proof (emap_inr_length _ _ _ Hmeasures) as Hlen.
  rewrite ndindex_length in Hlen.
  split; [done|]. split; [done|].
  intros pixel Hpixel.
  apply list_elem_of_lookup in Hpixel as [i Hi].
  destruct (emap_lookup _ _ _ _ _ Hmeasures Hi) as (measure & Hmeasure & Hcell).
  exists measure. split; [exact Hmeasure|].
  assert (Hoff : ravel shape pixel = Some i).
  { pose proof (f_equal (λ l, l !! i) (ravel_ndindex shape)) as Hrav.
    cbn beta in Hrav. rewrite !list_lookup_fmap, Hi in Hrav.
    rewrite lookup_seq_lt in Hrav.
    - by injection Hrav.
    - rewrite <- ndindex_length. by eapply lookup_lt_Some. }
  unfold nd_get. cbn [nd_shape nd_data]. by rewrite Hoff, Hcell.
Qed.

(** X2. A configuration that passes the checks, with collaborators that do
    not raise (the constructor on as many parameters as it declares, the
    integrator, the evaluator) and a backend that integrates coordinate by
    coordinate, is constructed: the engine's own indexing of the axes and of
    the image never raises. *)
Theorem construction_succeeds ic_function values potential_function (dt : Q)
    (steps : Z) (pattern_speed : Q) backend (chunksize : Z) (progressbar : bool)
    (shape : list nat) (potential : option Potential) (b : Backend) integrate :
  axes_mismatch (fn_args ic_function) values = false →
  grid_shape (fn_args ic_function) values = inr shape →
  fn_call potential_function [] = inr potential →
  (0 < dt)%Q → (0 < steps)%Z →
  resolve_backend backend potential = inr b →
  (0 < chunksize < Z.of_nat (prod shape))%Z →
  (∀ coords, compute_orbit b coords potential dt steps pattern_speed
     = emap integrate coords) →
  (∀ params, length params = length (fn_args ic_function) →
     ∃ coord, fn_call ic_function params = inr coord) →
  (∀ coord, ∃ orbit, integrate coord = inr orbit) →
  (∀ orbit, ∃ measure, evaluate_measure orbit = inr measure) →
  ∃ log x,
    __init__ ic_function values potential_function dt steps pattern_speed backend
      chunksize progressbar false = (log, inr x) ∧
    nd_shape (self_image x) = shape.
Proof.
  intros Haxes Hshape Hpot Hdt Hsteps Hb Hchunk Heach Hic Hint Heval.
  assert (Hle : Qle_bool dt 0 = false).
  { destruct (Qle_bool dt 0) eqn:Hle; [|done].
    apply Qle_bool_iff in Hle. by apply Qlt_not_le in Hdt. }
  set (self := mk_Analysis ic_function (fn_args ic_function) values shape
    (prod shape) potential_function potential dt steps pattern_speed b
    (zeros shape)).
  destruct (emap_total (pixel_measure self integrate) (ndindex shape))
    as [measures Hmeasures].
  { intros pixel Hpixel%ndindex_bounds.
    destruct (pixel_params_in_bounds values (fn_args ic_function) shape pixel)
      as (params & Hparams & Hall); [by apply grid_shape_inr|done|].
    unfold pixel_measure, pixel_params. cbn [self_values self_axis_names self].
    rewrite Hparams. cbn [ebind self_ic_function self].
    destruct (Hic params) as [coord ->].
    { pose proof (Forall3_length_lr _ _ _ _ Hall) as Hlr.
      pose proof (Forall3_length_lm _ _ _ _ Hall) as Hlm. lia. }
    cbn [ebind]. destruct (Hint coord) as [orbit ->]. cbn [ebind]. apply Heval. }
  destruct (__init__ ic_function values potential_function dt steps pattern_speed
    backend chunksize progressbar false) as [log r] eqn:Hinit.
  assert (Hout : r = inr (mk_Analysis ic_function (fn_args ic_function) values shape
    (prod shape) potential_function potential dt steps pattern_speed b
    (mk_ndarray shape measures))).
  { change r with (outcome (log, r)). rewrite <- Hinit.
    apply (init_image_iff ic_function values potential_function dt steps
      pattern_speed backend chunksize progressbar shape potential b integrate);
      [done..|]. by exists measures. }
  subst r. by eexists _, _.
Qed.

(** X3. A pixel of the grid whose constructor, integration or evaluation
    raises makes the whole construction raise: no instance is returned. *)
Theorem failing_pixel_aborts_construction ic_function values potential_function
    (dt : Q) (steps : Z) (pattern_speed : Q) backend (chunksize : Z)
    (progressbar : bool) (shape : list nat) (potential : option Potential)
    (b : Backend) integrate (pixel : list nat) (e : exn) :
  grid_shape (fn_args ic_function) values = inr shape →
  fn_call potential_function [] = inr potential →
  resolve_backend backend potential = inr b →
  (∀ coords, compute_orbit b coords potential dt steps pattern_speed
     = emap integrate coords) →
  pixel ∈ ndindex shape →
  pixel_measure
    (mk_Analysis ic_function (fn_args ic_function) values shape (prod shape)
       potential_function potential dt steps pattern_speed b (zeros shape))
    integrate pixel = inl e →
  ∃ e', outcome (__init__ ic_function values potential_function dt steps
    pattern_speed backend chunksize progressbar false) = inl e'.
Proof.
  intros Hshape Hpot Hb Heach Hpixel Hraise.
  destruct (outcome _) as [e'|x] eqn:Hout; [by exists e'|exfalso].
  destruct (__init__ _ _ _ _ _ _ _ _ _ _) as [log r] eqn:Hinit.
  unfold outcome in Hout. cbn [snd] in Hout. subst r.
  pose proof Hinit as Hinv. apply init_inr_inv in Hinv
    as (shape' & potential' & b' & image & Haxes & Hshape' & Hpot' & Hdt & Hsteps
        & Hb' & Hchunk & _ & _).
  assert (shape' = shape) as -> by congruence.
  assert (potential' = potential) as -> by congruence.
  assert (b' = b) as -> by congruence.
  assert (Hout : outcome (__init__ ic_function values potential_function dt steps
    pattern_speed backend chunksize progressbar false) = inr x) by by rewrite Hinit.
  apply (init_image_iff ic_function values potential_function dt steps
    pattern_speed backend chunksize progressbar shape potential b integrate)
    in Hout as (measures & Hmeasures & _); [|done..].
  destruct (emap_raises _ _ _ _ Hpixel Hraise) as [e' He']. congruence.
Qed.

(** X4. In a constructed engine every grid position resolves to parameters:
    one per declared parameter of the constructor, each the value of its
    axis at the position's index, with no [KeyError] and no [IndexError]. *)
Theorem grid_positions_resolve ic_function values potential_function (dt : Q)
    (steps : Z) (pattern_speed : Q) backend (chunksize : Z)
    (progressbar _blank_image : bool) (log : list event) (x : Analysis)
    (pixel : list nat) :
  __init__ ic_function values potential_function dt steps pattern_speed backend
    chunksize progressbar _blank_image = (log, inr x) →
  pixel ∈ ndindex (self_shape x) →
  ∃ params, pixel_params x pixel = inr params ∧
    Forall3 (λ i ax v, ∃ seq, self_values x !! ax = Some seq ∧ seq !! i = Some v)
      pixel (self_axis_names x) params.
Proof.
  intros Hinit Hpixel%ndindex_bounds.
  apply init_inr_inv in Hinit
    as (shape & potential & b & image & _ & Hshape & _ & _ & _ & _ & _ & -> & _).
  cbn [self_shape self_values self_axis_names] in *.
  apply (pixel_params_in_bounds values (fn_args ic_function) shape pixel);
    [by apply grid_shape_inr|done].
Qed.

End ConstructionProperties.

(** ** Batches and backend calls *)





Section BackendCalls.
Context `{Cb : Collaborators}.




End BackendCalls.

(** ** What every engine satisfies *)

Lemma prod_positive (shape : list nat) :
  (0 < prod shape)%nat → Forall (λ n, 0 < n)%nat shape.
Proof.
  induction shape as [|n shape IH]; [constructor|].
  rewrite prod_cons. intros Hpos. constructor; [nia|]. apply IH. nia.
Qed.

Section Invariants.
Context `{Cb : Collaborators}.

(** X6. The invariants of a constructed engine, blank or populated: its axis
    names are the constructor's parameters, pairwise distinct, and exactly
    the keys of its axis values; its shape has one positive length per
    axis, so no axis is empty; there is at least one axis and there are at
    least two grid points; the time step passed the check of line 99, that
    is, it is not less than or equal to zero, and the step count, an
    integer, is positive. *)
Theorem engine_invariants (ic_function : pyfunc SkyCoord)
    (values : gmap string (list Q))
    (potential_function : pyfunc (option Potential)) (dt : Q) (steps : Z)
    (pattern_speed : Q) (backend : backend_arg) (chunksize : Z)
    (progressbar _blank_image : bool) (log : list event) (x : Analysis) :
  __init__ ic_function values potential_function dt steps pattern_speed backend
    chunksize progressbar _blank_image = (log, inr x) →
  self_axis_names x = fn_args ic_function ∧
  NoDup (self_axis_names x) ∧
  dom (self_values x) = list_to_set (self_axis_names x) ∧
  length (self_shape x) = length (self_axis_names x) ∧
  Forall (λ n, 0 < n)%nat (self_shape x) ∧
  self_axis_names x ≠ [] ∧
  (2 ≤ self_size x)%nat ∧
  ¬ (self_dt x <= 0)%Q ∧
  (0 < self_steps x)%Z.
Proof.
  intros Hinit. apply init_inr_inv in Hinit
    as (shape & potential & b & image & Haxes & Hshape & _ & Hdt & Hsteps
        & _ & Hchunk & -> & _).
  cbn [self_axis_names self_values self_shape self_size self_dt self_steps].
  apply axes_match_names in Haxes as [Hnodup Hnames].
  pose proof (grid_shape_inr _ _ _ Hshape) as Hall.
  split; [done|]. split; [done|]. split; [|split; [|split; [|split; [|split; [|split]]]]].
  - apply set_eq. intros name.
    by rewrite elem_of_dom, elem_of_list_to_set, Hnames.
  - symmetry. by eapply Forall2_length.
  - apply prod_positive. lia.
  - intros Hnil. rewrite Hnil in Hall. apply Forall2_nil_inv_l in Hall as ->.
    simpl in Hchunk. lia.
  - lia.
  - intros Hle%Qle_bool_iff. congruence.
  - done.
Qed.

(** X7. The eager constructor is the blank constructor followed by
    [_construct_image] on its result: the same events, the same exception
    or the same instance. *)
Theorem eager_is_blank_then_construct (ic_function : pyfunc SkyCoord)
    (values : gmap string (list Q))
    (potential_function : pyfunc (option Potential)) (dt : Q) (steps : Z)
    (pattern_speed : Q) (backend : backend_arg) (chunksize : Z)
    (progressbar : bool) :
  bind (__init__ ic_function values potential_function dt steps pattern_speed
          backend chunksize progressbar true)
       (λ self, _construct_image self chunksize progressbar)
  = __init__ ic_function values potential_function dt steps pattern_speed
      backend chunksize progressbar false.
Proof.
  rewrite !init_unfold.
  destruct (axes_mismatch _ _); [done|].
  destruct (grid_shape _ _) as [e|shape]; [done|].
  destruct (fn_call potential_function []) as [e|potential]; [done|].
  destruct (Qle_bool dt 0); [done|]. destruct (steps <=? 0)%Z; [done|].
  destruct (resolve_backend backend potential) as [e|b]; [done|].
  destruct (chunksize <=? 0)%Z; [done|]. destruct (chunksize >=? _)%Z; [done|].
  cbv zeta. unfold bind, events, outcome.
  by destruct (_construct_image _ chunksize progressbar).
Qed.

Implicit Types (self : Analysis) (integrate : SkyCoord → Err Orbit).



End Invariants.

(** ** Loading, entry by entry *)

Lemma integration_calls_app (l1 l2 : list event) :
  integration_calls (l1 ++ l2) = (integration_calls l1 + integration_calls l2)%nat.
Proof. unfold integration_calls. by rewrite List.filter_app, length_app. Qed.

Lemma integration_calls_bind {A B} (m : Run A) (k : A → Run B) :
  integration_calls (events m) = 0%nat →
  (∀ a, integration_calls (events (k a)) = 0%nat) →
  integration_calls (events (bind m k)) = 0%nat.
Proof.
  intros Hm Hk. rewrite events_bind, integration_calls_app, Hm.
  destruct (outcome m) as [e|a]; [done|]. by rewrite Hk.
Qed.

Section Loading.
Context `{Cb : Collaborators}.

Lemma init_blank_no_integration (ic_function : pyfunc SkyCoord)
    (values : gmap string (list Q))
    (potential_function : pyfunc (option Potential)) (dt : Q) (steps : Z)
    (pattern_speed : Q) (backend : backend_arg) (chunksize : Z)
    (progressbar : bool) :
  integration_calls (events (__init__ ic_function values potential_function dt
    steps pattern_speed backend chunksize progressbar true)) = 0%nat.
Proof.
  rewrite init_unfold.
  destruct (axes_mismatch _ _); [done|].
  destruct (grid_shape _ _) as [e|shape]; [done|].
  destruct (fn_call potential_function []) as [e|potential]; [done|].
  destruct (Qle_bool dt 0); [done|]. destruct (steps <=? 0)%Z; [done|].
  destruct (resolve_backend backend potential) as [e|b]; [done|].
  destruct (chunksize <=? 0)%Z; [done|]. by destruct (chunksize >=? _)%Z.
Qed.

(** X9. Loading never integrates: whatever the file holds, and whether the
    load returns or raises, the backend is not called once. *)
Theorem load_never_integrates (f : h5file) :
  integration_calls (events (read_from_hdf5 f)) = 0%nat.
Proof.
  unfold read_from_hdf5.
  apply integration_calls_bind; [done|intros dset].
  apply integration_calls_bind.
  { destruct (ds_attrs dset !! "icfunc") as [v|];
      (apply integration_calls_bind; [done|by intros ?]). }
  intros ic. apply integration_calls_bind; [done|intros raw].
  apply integration_calls_bind.
  { destruct (ds_attrs dset !! "potfunc") as [v|];
      (apply integration_calls_bind; [done|by intros ?]). }
  intros potf.
  repeat (apply integration_calls_bind; [done|intros ?]).
  apply integration_calls_bind; [apply init_blank_no_integration|done].
Qed.

(** What line 226 read, when it did not raise. *)
Lemma read_values_inr (dset : dataset) (axis_names : list string)
    (acc raw : gmap string AttrVal) :
  read_values dset axis_names acc = inr raw →
  ∀ key, raw !! key =
    if decide (key ∈ axis_names) then ds_attrs dset !! key else acc !! key.
Proof.
  revert acc. induction axis_names as [|name rest IH]; intros acc; cbn [read_values].
  - intros [= <-] key. destruct (decide (key ∈ [])) as [Hin|]; [|done].
    by apply elem_of_nil in Hin.
  - unfold attr at 1. destruct (ds_attrs dset !! name) as [v|] eqn:Hv; [|done].
    cbn [ebind]. intros Hraw key. rewrite (IH _ Hraw key).
    destruct (decide (key ∈ rest)) as [Hin|Hnin].
    + rewrite decide_True; [done|by right].
    + destruct (decide (key = name)) as [->|Hne].
      * rewrite decide_True by left. by rewrite lookup_insert_eq.
      * rewrite decide_False.
        -- by rewrite lookup_insert_ne.
        -- intros [?|?]%elem_of_cons; done.
Qed.

(** The first declared parameter without an entry stops line 226. *)
Lemma read_values_missing (dset : dataset) (axis_names : list string)
    (acc : gmap string AttrVal) (name : string) :
  name ∈ axis_names → ds_attrs dset !! name = None →
  ∃ before name' after,
    axis_names = before ++ name' :: after ∧
    Forall (λ n, is_Some (ds_attrs dset !! n)) before ∧
    ds_attrs dset !! name' = None ∧
    read_values dset axis_names acc = inl (KeyError name').
Proof.
  revert acc. induction axis_names as [|first rest IH]; intros acc Hin Hnone.
  - by apply elem_of_nil in Hin.
  - cbn [read_values]. unfold attr at 1.
    destruct (ds_attrs dset !! first) as [v|] eqn:Hfirst.
    + cbn [ebind]. apply elem_of_cons in Hin as [->|Hin]; [congruence|].
      destruct (IH (<[first := v]> acc) Hin Hnone)
        as (before & name' & after & -> & Hbefore & Hnone' & ->).
      exists (first :: before), name', after.
      split; [done|]. split; [|done]. constructor; [by eexists|done].
    + exists [], first, rest. split; [done|]. split; [constructor|done].
Qed.

(** What the axis entries were, when they were taken as sequences. *)
Lemma sequences_inr (raw : gmap string AttrVal) (axis_names : list string)
    (acc vals : gmap string (list Q)) :
  sequences raw axis_names acc = inr vals →
  (∀ name, name ∈ axis_names →
     ∃ l, raw !! name = Some (AArray l) ∧ vals !! name = Some l) ∧
  (∀ key, key ∉ axis_names → vals !! key = acc !! key).
Proof.
  revert acc. induction axis_names as [|name rest IH]; intros acc; cbn [sequences].
  - intros [= <-]. split; [|done]. intros name Hin. by apply elem_of_nil in Hin.
  - destruct (raw !! name) as [v|] eqn:Hv; [|done].
    destruct v as [| | |l]; try done. cbn [as_sequence ebind].
    intros [Hin Hout]%IH. split.
    + intros key [->|Hkey]%elem_of_cons; [|by apply Hin].
      destruct (decide (name ∈ rest)) as [Hrest|Hrest].
      * destruct (Hin name Hrest) as (l' & Hl' & Hvals).
        exists l'. split; [done|]. congruence.
      * exists l. split; [done|]. by rewrite (Hout name Hrest), lookup_insert_eq.
    + intros key Hkey. rewrite Hout.
      * apply lookup_insert_ne. intros ->. apply Hkey. left.
      * intros Hrest. apply Hkey. by right.
Qed.

(** X10. A load that returns an instance decoded it from the entries: the
    [icfunc] entry is there and its text, executed, defines the instance's
    constructor; every declared parameter has an array entry, which is the
    axis's value sequence; time step, step count and pattern speed are the
    entries of those names; the image is the stored array; and the grid has
    at least two points. *)
Theorem loaded_instance_is_decoded (f : h5file) (log : list event) (self : Analysis) :
  read_from_hdf5 f = (log, inr self) →
  ∃ dset source,
    f !! cls_name = Some dset ∧
    ds_attrs dset !! "icfunc" = Some (AText source) ∧
    exec_lookup exec_ic source "ic_function" = inr (self_ic_function self) ∧
    self_axis_names self = fn_args (self_ic_function self) ∧
    (∀ name, name ∈ self_axis_names self →
       ∃ l, ds_attrs dset !! name = Some (AArray l) ∧
         self_values self !! name = Some l) ∧
    ebind (attr dset "dt") as_float = inr (self_dt self) ∧
    ebind (attr dset "steps") as_int = inr (self_steps self) ∧
    ebind (attr dset "pattern_speed") as_float = inr (self_pattern_speed self) ∧
    self_image self = ds_data dset ∧
    (2 ≤ self_size self)%nat.
Proof.
  intros Hload.
  assert (Hout : outcome (read_from_hdf5 f) = inr self) by by rewrite Hload.
  clear Hload. revert Hout. unfold read_from_hdf5.
  destruct (f !! cls_name) as [dset|] eqn:Hdset; [|done].
  rewrite bind_lift_inr. run_outcome.
  run_case as ic Hic. run_case as raw Hraw. run_case as potf Hpotf.
  run_case as name Hname. run_case as backend_cls Hcls.
  run_case as dt Hdt. run_case as steps Hsteps. run_case as ps Hps.
  run_case as b Hb. run_case as values Hvalues. run_case as analysis Hinit.
  intros [= <-].
  destruct (__init__ ic values potf dt steps ps b 1 true true)
    as [log' r] eqn:Hrun.
  unfold outcome in Hinit. cbn [snd] in Hinit. subst r.
  pose proof Hrun as Hinv. apply init_inr_inv in Hinv
    as (shape & potential & b' & image & Haxes & Hshape & _ & _ & _ & _ & Hchunk
        & -> & _).
  cbn [set_image self_ic_function self_axis_names self_values self_dt self_steps
    self_pattern_speed self_image self_size].
  destruct (ds_attrs dset !! "icfunc") as [v|] eqn:Hentry.
  - revert Hic. run_outcome. destruct v as [source| | |]; try done.
    cbn [tobytes_decode ebind]. run_outcome. intros Hic.
    exists dset, source. repeat split; try done; [|lia].
    intros axis Haxis.
    apply sequences_inr in Hvalues as [Hin _].
    destruct (Hin axis Haxis) as (l & Hl & Hval).
    exists l. split; [|done].
    by rewrite (read_values_inr _ _ _ _ Hraw axis), decide_True in Hl.
  - exfalso. revert Hic. run_outcome. intros [= <-].
    cbn [fn_args noop_ic_function] in Hshape. cbn [grid_shape emap] in Hshape.
    injection Hshape as <-. simpl in Hchunk. lia.
Qed.

(** X11. When the stored constructor declares a parameter that has no entry
    in the dataset, the load raises [KeyError] with the name of the first
    such parameter in the order of declaration, every parameter declared
    before it having an entry, and before anything else is done. *)
Theorem load_missing_axis_entry (f : h5file) (dset : dataset) (source : string)
    (ic_function : pyfunc SkyCoord) (name : string) :
  f !! cls_name = Some dset →
  ds_attrs dset !! "icfunc" = Some (AText source) →
  exec_lookup exec_ic source "ic_function" = inr ic_function →
  name ∈ fn_args ic_function →
  ds_attrs dset !! name = None →
  ∃ before name' after,
    fn_args ic_function = before ++ name' :: after ∧
    Forall (λ n, is_Some (ds_attrs dset !! n)) before ∧
    ds_attrs dset !! name' = None ∧
    read_from_hdf5 f = ([], inl (KeyError name')).
Proof.
  intros Hdset Hentry Hexec Hin Hnone.
  destruct (read_values_missing dset (fn_args ic_function) ∅ name Hin Hnone)
    as (before & name' & after & Hsplit & Hbefore & Hnone' & Hread).
  exists before, name', after. split; [done|]. split; [done|]. split; [done|].
  unfold read_from_hdf5. rewrite Hdset. cbv beta iota.
  rewrite bind_lift_inr, Hentry. cbn [tobytes_decode].
  by rewrite bind_lift_inr, Hexec, bind_lift_inr, Hread.
Qed.

End Loading.

(** X12. A file saved by one analysis class is not loaded by a class of
    another name: the dataset is looked up under the loading class's name,
    and the load raises [KeyError] with that name. *)
Theorem load_of_other_class_raises (D : Domain) (A B : @Collaborators D)
    (x : @Analysis D) :
  @cls_name D A ≠ @cls_name D B →
  read_from_hdf5 (Cb := B) (save (Cb := A) x) = ([], inl (KeyError (@cls_name D B))).
Proof.
  intros Hne. unfold read_from_hdf5, save.
  by rewrite lookup_singleton_ne.
Qed.

(** ** Renaming the stored sources *)

Lemma prefix_append (s t : string) : String.prefix s (s +:+ t) = true.
Proof.
  induction s as [|c s IH]; [by destruct t|].
  simpl. destruct (Ascii.ascii_dec c c); [exact IH|done].
Qed.

Lemma drop_string_append (s t : string) : drop_string (String.length s) (s +:+ t) = t.
Proof. induction s as [|c s IH]; [by destruct t|]. exact IH. Qed.

Lemma replace_first_cons (old new : string) (c : Ascii.ascii) (s : string) :
  String.prefix old (String c s) = false →
  replace_first old new (String c s) = String c (replace_first old new s).
Proof. intros Hpre. cbn [replace_first]. by rewrite Hpre. Qed.

Lemma replace_first_here (old new post : string) :
  replace_first old new (old +:+ post) = new +:+ post.
Proof.
  destruct (old +:+ post) as [|c s] eqn:Heq; cbn [replace_first];
    rewrite <- Heq, prefix_append, drop_string_append; done.
Qed.

(** [str.replace(old, new, 1)] as [save] uses it: the leftmost occurrence
    of the name is the one replaced, and the text before and after it is kept
    as it is, later occurrences of the name included. *)
Lemma replace_first_leftmost (old new pre post : string) :
  (∀ a b, pre = a +:+ b → b ≠ "" → String.prefix old (b +:+ old +:+ post) = false) →
  replace_first old new (pre +:+ old +:+ post) = pre +:+ new +:+ post.
Proof.
  induction pre as [|c pre IH]; intros Hfirst.
  - change (replace_first old new (old +:+ post) = new +:+ post).
    apply replace_first_here.
  - change (String c pre +:+ old +:+ post) with (String c (pre +:+ old +:+ post)).
    rewrite replace_first_cons.
    + change (String c pre +:+ new +:+ post) with (String c (pre +:+ new +:+ post)).
      f_equal. apply IH. intros a b -> Hb.
      by apply (Hfirst (String c a) b).
    + by apply (Hfirst "" (String c pre)).
Qed.

(** A text in which the name does not occur is kept as it is. *)
Lemma replace_first_absent (old new s : string) :
  (∀ a b, s = a +:+ b → String.prefix old b = false) →
  replace_first old new s = s.
Proof.
  induction s as [|c s IH]; intros Habsent.
  - cbn [replace_first]. by rewrite (Habsent "" "").
  - rewrite replace_first_cons by by apply (Habsent "").
    f_equal. apply IH. intros a b ->. by apply (Habsent (String c a) b).
Qed.

Section Renaming.
Context `{Cb : Collaborators}.

(** X13. For a constructor whose source starts with [def name] and whose
    name does not begin with one of the letters of [def], the entry [icfunc]
    that [save] writes is the source with the name of the header replaced by
    [ic_function], the rest of the text unchanged: a later use of the old
    name, as in a recursive function, is stored under the old name. *)
Theorem save_renames_the_header (self : Analysis) (rest : string) :
  fn_source (self_ic_function self)
    = "def " +:+ fn_name (self_ic_function self) +:+ rest →
  fn_name (self_ic_function self) ≠ "" →
  String.prefix "d" (fn_name (self_ic_function self)) = false →
  String.prefix "e" (fn_name (self_ic_function self)) = false →
  String.prefix "f" (fn_name (self_ic_function self)) = false →
  String.prefix " " (fn_name (self_ic_function self)) = false →
  self_values self !! "icfunc" = None →
  ∃ dset, save self !! cls_name = Some dset ∧
    ds_attrs dset !! "icfunc" = Some (AText ("def ic_function" +:+ rest)).
Proof.
  intros Hsource Hname Hd He Hf Hspace Hfree.
  apply save_reserved_lookup; [done|].
  unfold save_attrs. cbn [list_to_map foldr fst snd].
  rewrite lookup_insert_eq. do 2 f_equal. rewrite Hsource.
  destruct (fn_name (self_ic_function self)) as [|c name]; [done|].
  rewrite (replace_first_leftmost (String c name) "ic_function" "def " rest);
    [done|].
  intros a b Hsplit Hb.
  assert (Hc : ∀ c' t, String.prefix (String c' "") (String c name) = false →
    String.prefix (String c name) (String c' t) = false).
  { intros c' t Hpre. simpl in *.
    destruct (Ascii.ascii_dec c c') as [->|]; [|done].
    destruct (Ascii.ascii_dec c' c'); [by destruct name|done]. }
  destruct a as [|a1 [|a2 [|a3 [|a4 a]]]]; cbv [String.append] in Hsplit.
  - subst b. by apply Hc.
  - injection Hsplit as _ <-. by apply Hc.
  - injection Hsplit as _ _ <-. by apply Hc.
  - injection Hsplit as _ _ _ <-. by apply Hc.
  - injection Hsplit as _ _ _ _ Hrest. destruct a; [|done].
    by destruct b.
Qed.

End Renaming.

Section BrokenKeyword.
Context `{Cb : Collaborators}.

(** X14. A constructor named [d], [de], [e], [ef] or [f] is not renamed in
    its header by [save]: the name occurs first inside the keyword [def],
    and it is the keyword that the replacement breaks. The stored [icfunc]
    entry keeps the old name in the header and no longer starts with
    [def]. *)
Theorem short_names_break_the_keyword (self : Analysis)
    (before after rest : string) :
  (before, fn_name (self_ic_function self), after) ∈
    [("", "d", "ef"); ("", "de", "f"); ("d", "e", "f"); ("d", "ef", "");
     ("de", "f", "")] →
  fn_source (self_ic_function self)
    = "def " +:+ fn_name (self_ic_function self) +:+ rest →
  self_values self !! "icfunc" = None →
  ∃ dset stored, save self !! cls_name = Some dset ∧
    ds_attrs dset !! "icfunc" = Some (AText stored) ∧
    stored = before +:+ "ic_function" +:+ after +:+ " "
               +:+ fn_name (self_ic_function self) +:+ rest ∧
    String.prefix "def " stored = false.
Proof.
  intros Hname Hsource Hfree.
  assert (Hstored : replace_first (fn_name (self_ic_function self)) "ic_function"
      (fn_source (self_ic_function self))
    = before +:+ "ic_function" +:+ after +:+ " "
        +:+ fn_name (self_ic_function self) +:+ rest
    ∧ String.prefix "def " (before +:+ "ic_function" +:+ after +:+ " "
        +:+ fn_name (self_ic_function self) +:+ rest) = false).
  { rewrite Hsource. revert Hname.
    rewrite !elem_of_cons, elem_of_nil.
    intros [Heq|[Heq|[Heq|[Heq|[Heq|[]]]]]];
      injection Heq as -> -> ->; split; reflexivity. }
  destruct Hstored as [Hstored Hprefix].
  destruct (save_reserved_lookup self "icfunc"
    (AText (replace_first (fn_name (self_ic_function self)) "ic_function"
       (fn_source (self_ic_function self))))) as (dset & Hdset & Hentry);
    [done| |].
  { unfold save_attrs. cbn [list_to_map foldr fst snd]. by rewrite lookup_insert_eq. }
  exists dset, (before +:+ "ic_function" +:+ after +:+ " "
    +:+ fn_name (self_ic_function self) +:+ rest).
  rewrite Hstored in Hentry. done.
Qed.

End BrokenKeyword.

(** ** The entries of a saved dataset *)

Section SavedEntries.
Context `{Cb : Collaborators}.




End SavedEntries.

(** ** A container without the potential's source *)

Section WithoutPotential.
Context `{Cb : Collaborators}.

Lemma attr_delete_ne (dset : dataset) (array : ndarray) (key key' : string) :
  key ≠ key' →
  attr (mk_dataset array (delete key' (ds_attrs dset))) key = attr dset key.
Proof. intros Hne. unfold attr. cbn [ds_attrs]. by rewrite lookup_delete_ne. Qed.

Lemma read_values_delete (dset : dataset) (array : ndarray) (key : string)
    (axis_names : list string) (acc : gmap string AttrVal) :
  key ∉ axis_names →
  read_values (mk_dataset array (delete key (ds_attrs dset))) axis_names acc
  = read_values dset axis_names acc.
Proof.
  revert acc. induction axis_names as [|name rest IH]; intros acc Hkey; [done|].
  apply not_elem_of_cons in Hkey as [Hne Hrest]. cbn [read_values].
  rewrite attr_delete_ne by done.
  destruct (attr dset name) as [e|v]; [done|]. cbn [ebind]. by apply IH.
Qed.

Lemma bind_tell_ret {A B} (ev : event) (a : A) (k : A → Run B)
    (log : list event) (r : Err B) :
  k a = (log, r) → bind (bind (tell ev) (λ _, ret a)) k = (ev :: log, r).
Proof. intros Hk. unfold bind, tell, ret. cbn. by rewrite Hk. Qed.

(** Only for [None], or another falsy object that is no string, does the
    constructor ask the potential for a backend. *)
Lemma resolve_backend_given (backend : backend_arg)
    (potential potential' : option Potential) :
  backend ≠ NoBackend →
  resolve_backend backend potential' = resolve_backend backend potential.
Proof.
  intros Hgiven. destruct backend as [|name|b]; [done| |done].
  unfold resolve_backend. by destruct (backend_of_name name).
Qed.

(** X16. The [potfunc] entry is not needed to load: a file that loads still
    loads when that entry is removed from its dataset, with one warning and
    one call of the stand-in potential constructor, and the instance is the
    same except that its potential constructor is the stand-in and its
    potential is [None]. This holds where the backend does not come from
    the potential: the attribute of the pidgey module that the [backend]
    entry names must not return [None] or another falsy object when called,
    which a backend class never does. *)
Theorem load_without_potfunc (f : h5file) (dset : dataset) (log : list event)
    (self : Analysis) :
  read_from_hdf5 f = (log, inr self) →
  f !! cls_name = Some dset →
  (∀ name a, ds_attrs dset !! "backend" = Some (AText name) →
     pidgey_getattr name = inr a → call_backend_cls a ≠ inr NoBackend) →
  "potfunc" ∉ self_axis_names self →
  read_from_hdf5
    (<[cls_name := mk_dataset (ds_data dset) (delete "potfunc" (ds_attrs dset))]> f)
  = ([Warn "No potential function defined."; CallPotentialFunction],
     inr (mk_Analysis (self_ic_function self) (self_axis_names self)
            (self_values self) (self_shape self) (self_size self)
            noop_potential_function None (self_dt self) (self_steps self)
            (self_pattern_speed self) (self_backend self) (self_image self))).
Proof.
  intros Hload Hdset Hgiven.
  assert (Hout : outcome (read_from_hdf5 f) = inr self) by by rewrite Hload.
  clear Hload. revert Hout. unfold read_from_hdf5 at 1. rewrite Hdset.
  rewrite bind_lift_inr. run_outcome.
  run_case as ic Hic. run_case as raw Hraw. run_case as potf Hpotf.
  run_case as name Hname. run_case as backend_cls Hcls.
  run_case as dt Hdt. run_case as steps Hsteps. run_case as ps Hps.
  run_case as b Hb. run_case as values Hvalues. run_case as analysis Hinit.
  intros [= <-].
  destruct (__init__ ic values potf dt steps ps b 1 true true)
    as [log' r] eqn:Hrun.
  unfold outcome in Hinit. cbn [snd] in Hinit. subst r.
  apply init_inr_inv in Hrun
    as (shape & potential & b' & image & Haxes & Hshape & _ & Hle & Hpos & Hb'
        & Hchunk & -> & ->).
  assert (Hb0 : b ≠ NoBackend).
  { intros ->. revert Hname. unfold attr.
    destruct (ds_attrs dset !! "backend") as [v|] eqn:Hbackend; [|done].
    destruct v as [stored| | |]; try done. intros [= ->].
    by apply (Hgiven name backend_cls). }
  cbn [set_image self_ic_function self_axis_names self_values self_shape self_size
    self_dt self_steps self_pattern_speed self_backend self_image].
  intros Hfree.
  destruct (ds_attrs dset !! "icfunc") as [v|] eqn:Hentry.
  2:{ exfalso. revert Hic. run_outcome. intros [= <-].
      cbn [fn_args noop_ic_function grid_shape emap] in Hshape.
      injection Hshape as <-. simpl in Hchunk. lia. }
  revert Hic. run_outcome. destruct v as [source| | |]; try done.
  cbn [tobytes_decode ebind]. run_outcome. intros Hic.
  unfold read_from_hdf5. rewrite lookup_insert_eq, bind_lift_inr.
  cbn [ds_attrs ds_data].
  rewrite lookup_delete_ne, Hentry by done. cbn [tobytes_decode].
  rewrite bind_lift_inr, Hic, bind_lift_inr.
  rewrite read_values_delete, Hraw, bind_lift_inr by done.
  rewrite lookup_delete_eq.
  apply bind_tell_ret.
  rewrite !attr_delete_ne by done.
  rewrite Hname, bind_lift_inr, Hcls, bind_lift_inr, Hdt, bind_lift_inr.
  rewrite Hsteps, bind_lift_inr, Hps, bind_lift_inr, Hb, bind_lift_inr.
  rewrite Hvalues, bind_lift_inr.
  rewrite init_unfold, Haxes, Hshape, Hle. cbn [fn_call noop_potential_function].
  rewrite (resolve_backend_given b potential None Hb0), Hb'.
  destruct (Z.leb_spec steps 0) as [|_]; [lia|].
  destruct (Z.leb_spec 1 0) as [|_]; [lia|].
  destruct (Z.geb_spec 1 (Z.of_nat (prod shape))) as [|_]; [lia|].
  reflexivity.
Qed.

(** X17. A load validates as the constructor does: an instance that was
    loaded has pairwise distinct axis names, which are exactly the keys of
    its axis values, a shape of one positive length per axis whose product
    is its size, at least one axis and at least two grid points, and a time
    step and a step count that passed the checks of lines 99 and 102:
    neither is less than or equal to zero. *)
Theorem loaded_instance_is_validated (f : h5file) (log : list event)
    (self : Analysis) :
  read_from_hdf5 f = (log, inr self) →
  NoDup (self_axis_names self) ∧
  dom (self_values self) = list_to_set (self_axis_names self) ∧
  length (self_shape self) = length (self_axis_names self) ∧
  Forall (λ n, 0 < n)%nat (self_shape self) ∧
  self_size self = prod (self_shape self) ∧
  self_axis_names self ≠ [] ∧
  (2 ≤ self_size self)%nat ∧
  ¬ (self_dt self <= 0)%Q ∧
  ¬ (self_steps self ≤ 0)%Z.
Proof.
  intros Hload.
  assert (Hout : outcome (read_from_hdf5 f) = inr self) by by rewrite Hload.
  apply load_inr_inv in Hout
    as (dset & ic & potf & name & a & backend & dt & steps & ps & values
        & analysis & _ & _ & _ & _ & Hinit & ->).
  destruct (__init__ ic values potf dt steps ps backend 1 true true)
    as [log' r] eqn:Hrun.
  unfold outcome in Hinit. cbn [snd] in Hinit. subst r.
  apply init_inr_inv in Hrun
    as (shape & potential & b & image & Haxes & Hshape & _ & Hdt & Hsteps
        & _ & Hchunk & -> & _).
  cbn [set_image self_axis_names self_values self_shape self_size self_dt
    self_steps].
  apply axes_match_names in Haxes as [Hnodup Hnames].
  pose proof (grid_shape_inr _ _ _ Hshape) as Hall.
  split; [done|]. split; [|split; [|split; [|split; [|split; [|split; [|split]]]]]].
  - apply set_eq. intros key.
    by rewrite elem_of_dom, elem_of_list_to_set, Hnames.
  - symmetry. by eapply Forall2_length.
  - apply prod_positive. lia.
  - done.
  - intros Hnil. rewrite Hnil in Hall. apply Forall2_nil_inv_l in Hall as ->.
    simpl in Hchunk. lia.
  - lia.
  - intros Hle%Qle_bool_iff. congruence.
  - lia.
Qed.

End WithoutPotential.

(** ** The further properties on the scenario *)

Example demo_blank_constructed :
  __init__ (Cb := demo_world) demo_ic demo_values demo_potential 1%Q 10%Z 0%Q
    NoBackend 1 true true = ([CallPotentialFunction], inr (demo_blank demo_ic)).
Proof. by vm_compute. Qed.

(** X1: the scenario's engine; its three cells hold the measures of the
    three grid points. *)
Lemma image_holds_the_measures_witness :
  ∃ log x,
    demo_run (BackendObject trivial_backend) 2 = (log, inr x) ∧
    nd_shape (self_image x) = self_shape x ∧
    length (nd_data (self_image x)) = self_size x ∧
    ∀ pixel, pixel ∈ ndindex (self_shape x) →
      ∃ measure,
        pixel_measure (Cb := demo_world) x (λ coord, inr coord) pixel = inr measure ∧
        nd_get (self_image x) pixel = inr measure.
Proof.
  eexists _, _. split; [vm_compute; reflexivity|].
  eapply (image_holds_the_measures (Cb := demo_world) demo_ic demo_values
    demo_potential 1%Q 10%Z 0%Q (BackendObject trivial_backend) 2%Z true _ _
    (λ coord, inr coord)).
  - vm_compute; reflexivity.
  - intros coords. symmetry. apply (emap_inr coords).
Defined.

(** X2: the scenario's axis in the class whose evaluator counts. *)
Lemma construction_succeeds_witness :
  ∃ log x,
    __init__ (Cb := counting_world) demo_ic demo_values demo_potential 1%Q 10%Z
      0%Q NoBackend 2 true false = (log, inr x) ∧
    nd_shape (self_image x) = [3%nat].
Proof.
  apply (construction_succeeds (Cb := counting_world) demo_ic demo_values
    demo_potential 1%Q 10%Z 0%Q NoBackend 2%Z true [3%nat] (Some tt)
    (Pidgey GalpyBackend) (λ coord, inr coord)).
  - by vm_compute.
  - by vm_compute.
  - reflexivity.
  - reflexivity.
  - reflexivity.
  - reflexivity.
  - by vm_compute.
  - intros coords. symmetry. apply (emap_inr coords).
  - intros params _. by eexists.
  - intros coord. by eexists.
  - intros orbit. by eexists.
Defined.

(** X3: the constructor with a pole at [x = 2] on the axis 1, 2, 3. *)
Lemma failing_pixel_aborts_construction_witness :
  ∃ e', outcome (__init__ (Cb := demo_world) demo_ic_pole demo_values
    demo_potential 1%Q 10%Z 0%Q (BackendObject trivial_backend) 1 true false)
    = inl e'.
Proof.
  apply (failing_pixel_aborts_construction (Cb := demo_world) demo_ic_pole
    demo_values demo_potential 1%Q 10%Z 0%Q (BackendObject trivial_backend) 1%Z
    true [3%nat] (Some tt) trivial_backend (λ coord, inr coord) [1%nat]
    ZeroDivisionError).
  - by vm_compute.
  - reflexivity.
  - reflexivity.
  - intros coords. symmetry. apply (emap_inr coords).
  - apply (list_elem_of_lookup_2 _ 1%nat). reflexivity.
  - by vm_compute.
Defined.

(** X4: the second grid point of the scenario's engine. *)
Lemma grid_positions_resolve_witness :
  ∃ log x,
    demo_run NoBackend 1 = (log, inr x) ∧
    ∃ params, pixel_params x [1%nat] = inr params ∧
      Forall3 (λ i ax v, ∃ seq, self_values x !! ax = Some seq ∧ seq !! i = Some v)
        [1%nat] (self_axis_names x) params.
Proof.
  eexists _, _. split; [vm_compute; reflexivity|].
  eapply (grid_positions_resolve (Cb := demo_world) demo_ic demo_values
    demo_potential 1%Q 10%Z 0%Q NoBackend 1%Z true false).
  - vm_compute; reflexivity.
  - apply (list_elem_of_lookup_2 _ 1%nat). reflexivity.
Defined.


(** X6: the scenario's engine in blank mode. *)
Lemma engine_invariants_witness :
  self_axis_names (demo_blank demo_ic) = fn_args demo_ic ∧
  NoDup (self_axis_names (demo_blank demo_ic)) ∧
  dom (self_values (demo_blank demo_ic))
    = list_to_set (self_axis_names (demo_blank demo_ic)) ∧
  length (self_shape (demo_blank demo_ic))
    = length (self_axis_names (demo_blank demo_ic)) ∧
  Forall (λ n, 0 < n)%nat (self_shape (demo_blank demo_ic)) ∧
  self_axis_names (demo_blank demo_ic) ≠ [] ∧
  (2 ≤ self_size (demo_blank demo_ic))%nat ∧
  ¬ (self_dt (demo_blank demo_ic) <= 0)%Q ∧
  (0 < self_steps (demo_blank demo_ic))%Z.
Proof.
  apply (engine_invariants (Cb := demo_world) demo_ic demo_values demo_potential
    1%Q 10%Z 0%Q NoBackend 1%Z true true [CallPotentialFunction]).
  by vm_compute.
Defined.


(** X10: the scenario's container. *)
Lemma loaded_instance_is_decoded_witness :
  ∃ log self,
    read_from_hdf5 (Cb := demo_world) (demo_file "GalpyBackend") = (log, inr self) ∧
    ∃ dset source,
      demo_file "GalpyBackend" !! cls_name (Collaborators := demo_world) = Some dset ∧
      ds_attrs dset !! "icfunc" = Some (AText source) ∧
      exec_lookup (exec_ic (Collaborators := demo_world)) source "ic_function"
        = inr (self_ic_function self) ∧
      self_axis_names self = fn_args (self_ic_function self) ∧
      (∀ name, name ∈ self_axis_names self →
         ∃ l, ds_attrs dset !! name = Some (AArray l) ∧
           self_values self !! name = Some l) ∧
      ebind (attr dset "dt") as_float = inr (self_dt self) ∧
      ebind (attr dset "steps") as_int = inr (self_steps self) ∧
      ebind (attr dset "pattern_speed") as_float = inr (self_pattern_speed self) ∧
      self_image self = ds_data dset ∧
      (2 ≤ self_size self)%nat.
Proof.
  eexists _, _. split; [vm_compute; reflexivity|].
  eapply (loaded_instance_is_decoded (Cb := demo_world) (demo_file "GalpyBackend")).
  vm_compute; reflexivity.
Defined.

(** X11: the scenario's container without the entry [x] of its axis. *)
Lemma load_missing_axis_entry_witness :
  ∃ before name' after,
    ["x"] = before ++ name' :: after ∧
    Forall (λ n, is_Some (ds_attrs (mk_dataset (mk_ndarray [3%nat] [1; 2; 3]%Q)
      (delete "x" (demo_attrs "GalpyBackend"))) !! n)) before ∧
    ds_attrs (mk_dataset (mk_ndarray [3%nat] [1; 2; 3]%Q)
      (delete "x" (demo_attrs "GalpyBackend"))) !! name' = None ∧
    read_from_hdf5 (Cb := demo_world) demo_file_without_axis
      = ([], inl (KeyError name')).
Proof.
  apply (load_missing_axis_entry (Cb := demo_world) demo_file_without_axis
    (mk_dataset (mk_ndarray [3%nat] [1; 2; 3]%Q)
       (delete "x" (demo_attrs "GalpyBackend")))
    "def ic_function(x): return c.SkyCoord(x)"
    (mk_pyfunc "ic_function" "def ic_function(x): return c.SkyCoord(x)" ["x"]
       (λ params, inr params))
    "x").
  - reflexivity.
  - by vm_compute.
  - reflexivity.
  - apply list_elem_of_here.
  - by vm_compute.
Defined.

(** X12: the blank engine of the scenario, saved by its class and loaded by
    the class whose evaluator counts. *)
Lemma load_of_other_class_raises_witness :
  read_from_hdf5 (Cb := counting_world) (save (Cb := demo_world) (demo_blank demo_ic))
    = ([], inl (KeyError "CountingAnalysis")).
Proof.
  apply (load_of_other_class_raises demo_domain demo_world counting_world
    (demo_blank demo_ic)).
  by vm_compute.
Defined.

(** X13: the scenario's constructor [ic] is stored as [ic_function]. *)
Lemma save_renames_the_header_witness :
  ∃ dset,
    save (Cb := demo_world) (demo_blank demo_ic)
      !! cls_name (Collaborators := demo_world) = Some dset ∧
    ds_attrs dset !! "icfunc"
      = Some (AText ("def ic_function" +:+ "(x): return c.SkyCoord(x)")).
Proof.
  apply (save_renames_the_header (Cb := demo_world) (demo_blank demo_ic)
    "(x): return c.SkyCoord(x)").
  - reflexivity.
  - by vm_compute.
  - reflexivity.
  - reflexivity.
  - reflexivity.
  - reflexivity.
  - by vm_compute.
Defined.

(** X14: the same constructor under the name [f] is stored as
    [deic_function f(x): ...]. *)
Lemma short_names_break_the_keyword_witness :
  ∃ dset stored,
    save (Cb := demo_world) (demo_blank demo_ic_f)
      !! cls_name (Collaborators := demo_world) = Some dset ∧
    ds_attrs dset !! "icfunc" = Some (AText stored) ∧
    stored = "de" +:+ "ic_function" +:+ "" +:+ " " +:+ "f"
               +:+ "(x): return c.SkyCoord(x)" ∧
    String.prefix "def " stored = false.
Proof.
  apply (short_names_break_the_keyword (Cb := demo_world) (demo_blank demo_ic_f)
    "de" "" "(x): return c.SkyCoord(x)").
  - apply (list_elem_of_lookup_2 _ 4%nat). reflexivity.
  - reflexivity.
  - by vm_compute.
Defined.

(** X16: the scenario's container with its [potfunc] entry removed. *)
Lemma load_without_potfunc_witness :
  ∃ log self,
    read_from_hdf5 (Cb := demo_world) (demo_file "GalpyBackend") = (log, inr self) ∧
    read_from_hdf5 (Cb := demo_world)
      (<[cls_name (Collaborators := demo_world) :=
           mk_dataset (mk_ndarray [3%nat] [1; 2; 3]%Q)
             (delete "potfunc" (demo_attrs "GalpyBackend"))]>
         (demo_file "GalpyBackend"))
    = ([Warn "No potential function defined."; CallPotentialFunction],
       inr (mk_Analysis (self_ic_function self) (self_axis_names self)
              (self_values self) (self_shape self) (self_size self)
              noop_potential_function None (self_dt self) (self_steps self)
              (self_pattern_speed self) (self_backend self) (self_image self))).
Proof.
  eexists _, _. split; [vm_compute; reflexivity|].
  eapply (load_without_potfunc (Cb := demo_world) (demo_file "GalpyBackend")
    (mk_dataset (mk_ndarray [3%nat] [1; 2; 3]%Q) (demo_attrs "GalpyBackend"))).
  - vm_compute; reflexivity.
  - reflexivity.
  - intros name a [= <-]. vm_compute. intros [= <-]. discriminate.
  - apply not_elem_of_cons. split; [done|apply not_elem_of_nil].
Defined.

(** X17: the scenario's container. *)
Lemma loaded_instance_is_validated_witness :
  ∃ log self,
    read_from_hdf5 (Cb := demo_world) (demo_file "GalpyBackend") = (log, inr self) ∧
    NoDup (self_axis_names self) ∧
    dom (self_values self) = list_to_set (self_axis_names self) ∧
    length (self_shape self) = length (self_axis_names self) ∧
    Forall (λ n, 0 < n)%nat (self_shape self) ∧
    self_size self = prod (self_shape self) ∧
    self_axis_names self ≠ [] ∧
    (2 ≤ self_size self)%nat ∧
    ¬ (self_dt self <= 0)%Q ∧
    ¬ (self_steps self ≤ 0)%Z.
Proof.
  eexists _, _. split; [vm_compute; reflexivity|].
  eapply (loaded_instance_is_validated (Cb := demo_world) (demo_file "GalpyBackend")).
  vm_compute; reflexivity.
Defined.
